(** * WEIC Time Tracker: the server's storage and route handlers

    A shallow embedding of [server/storage.ts] (the in-memory store
    [MemStorage]) and [server/routes.ts] (the Express handlers), with the
    table types of the shared schema, followed by the properties of the
    check-in / check-out life cycle, the PIN setup and the timesheet
    export.

    Conventions.
    - A JavaScript [Map] keeps its keys in insertion order; [find] and
      [Array.from(map.values())] observe that order, so a [Map] is an
      association list with the [Map] operations written out ([JsMap]).
    - A [Date] is its time value, milliseconds since the epoch, in [Z].
    - The [async] storage methods mutate [this]; they are computations in
      a state monad over the store, and the handlers are computations over
      the store and the caller's session.
    - What the handlers take from the JavaScript runtime and from bcryptjs
      (double arithmetic, [parseFloat], [Number.prototype.toString],
      [Date] parsing, [bcrypt.hash], [bcrypt.compare]) is an interface,
      [Runtime]; the general theorems hold for every implementation of
      it, and the runs on concrete requests use [WholeRuntime].
    - [new Date()], [randomUUID()] and the salt drawn by [bcrypt.hash] are
      inputs of a request ([Env]); no handler asks for any of them twice. *)

From Stdlib Require Import ZArith List String Ascii Bool Lia.
From Stdlib Require Import Permutation Sorted DecimalString.
Import ListNotations.

Local Open Scope string_scope.
Local Open Scope list_scope.
Local Open Scope Z_scope.

(** ** JavaScript [Map] with string keys *)

Module JsMap.

Definition t (V : Type) : Type := list (string * V).

Definition empty {V : Type} : t V := [].

(** [map.get(k)] *)
Fixpoint get {V : Type} (k : string) (m : t V) : option V :=
  match m with
  | [] => None
  | (k', v) :: m' => if String.eqb k k' then Some v else get k m'
  end.

(** [map.set(k, v)]: an existing key keeps its position, a new key goes
    to the end. *)
Fixpoint set {V : Type} (k : string) (v : V) (m : t V) : t V :=
  match m with
  | [] => [(k, v)]
  | (k', v') :: m' =>
      if String.eqb k k' then (k, v) :: m' else (k', v') :: set k v m'
  end.

(** [map.delete(k)], the map it leaves. *)
Fixpoint delete {V : Type} (k : string) (m : t V) : t V :=
  match m with
  | [] => []
  | (k', v') :: m' =>
      if String.eqb k k' then m' else (k', v') :: delete k m'
  end.

(** [map.has(k)]; also the boolean [map.delete(k)] returns. *)
Definition has {V : Type} (k : string) (m : t V) : bool :=
  match get k m with Some _ => true | None => false end.

(** [Array.from(map.values())] *)
Definition values {V : Type} (m : t V) : list V := map snd m.

Definition keys {V : Type} (m : t V) : list string := map fst m.

End JsMap.

(** ** The calendar date of an instant: [d.toISOString().split('T')[0]] *)

Module IsoDate.

Definition msPerDay : Z := 86400000.

(** Day number of a time value (floor division, as in ECMAScript's
    [Day(t)]). *)
Definition Day (t : Z) : Z := t / msPerDay.

(** Proleptic Gregorian year, month and day of a day number counted from
    1970-01-01. *)
Definition civil_from_days (days : Z) : Z * Z * Z :=
  let z := days + 719468 in
  let era := z / 146097 in
  let doe := z - era * 146097 in
  let yoe := (doe - doe / 1460 + doe / 36524 - doe / 146096) / 365 in
  let y := yoe + era * 400 in
  let doy := doe - (365 * yoe + yoe / 4 - yoe / 100) in
  let mp := (5 * doy + 2) / 153 in
  let d := doy - (153 * mp + 2) / 5 + 1 in
  let m := if mp <? 10 then mp + 3 else mp - 9 in
  ((if m <=? 2 then y + 1 else y), m, d).

Definition digit (n : Z) : ascii := ascii_of_nat (48 + Z.to_nat (n mod 10)).

Fixpoint digits (width : nat) (n : Z) (acc : string) : string :=
  match width with
  | O => acc
  | S w => digits w (n / 10) (String (digit n) acc)
  end.

(** [n] in decimal, zero-padded to [width] digits. *)
Definition pad (width : nat) (n : Z) : string := digits width n "".

(** Years 0..9999 print with four digits, the others with a sign and six. *)
Definition year_string (y : Z) : string :=
  if (0 <=? y) && (y <=? 9999) then pad 4 y
  else String.append (if y <? 0 then "-" else "+") (pad 6 (Z.abs y)).

Definition toISODate (t : Z) : string :=
  let '(y, m, d) := civil_from_days (Day t) in
  (year_string y ++ "-" ++ pad 2 m ++ "-" ++ pad 2 d)%string.

End IsoDate.

(** ** What the handlers use of the runtime and of bcryptjs *)

Class Runtime : Type := {
  (** JavaScript numbers (IEEE doubles, with NaN) *)
  num : Type;
  (** an integer time value as a number *)
  num_of_Z : Z -> num;
  num_sub : num -> num -> num;
  num_div : num -> num -> num;
  num_mul : num -> num -> num;
  Math_min : num -> num -> num;
  parseFloat : string -> num;
  (** [n.toString()] *)
  num_toString : num -> string;
  (** [new Date(s).getTime()]; [None] is NaN (an invalid date) *)
  Date_parse : string -> option Z;
  (** [bcrypt.hash(pin, 10)] with the salt it drew *)
  bcrypt_hash : string -> string -> string;
  (** [bcrypt.compare(pin, hash)] *)
  bcrypt_compare : string -> string -> bool
}.

(** A [Date] object, as its time value. *)
Definition Date : Type := Z.

Definition getTime `{Runtime} (d : Date) : num := num_of_Z d.

(** Truthiness of the values the handlers test. *)
Definition truthy_bool (b : option bool) : bool :=
  match b with Some true => true | _ => false end.

Definition truthy_string (s : string) : bool :=
  negb (String.eqb s "").

Definition truthy_opt {A : Type} (o : option A) : bool :=
  match o with Some _ => true | None => false end.

(** ** Data model (the shared schema's inferred row types) *)

Module Teacher.
Record t : Type := mk {
  id : string;
  name : string;
  hourlyRate : string;
  maxBillableHours : string;
  isCheckedIn : option bool;
  currentCheckInTime : option Date
}.
End Teacher.

(** [InsertTeacher]: the insert schema omits id, isCheckedIn and
    currentCheckInTime. *)
Module InsertTeacher.
Record t : Type := mk {
  name : string;
  hourlyRate : string;
  maxBillableHours : string
}.
End InsertTeacher.

(** [Partial<Teacher>]: [None] is an absent key. *)
Module PartialTeacher.
Record t : Type := mk {
  id : option string;
  name : option string;
  hourlyRate : option string;
  maxBillableHours : option string;
  isCheckedIn : option (option bool);
  currentCheckInTime : option (option Date)
}.
Definition none : t := mk None None None None None None.
End PartialTeacher.

Module TimeEntry.
Record t : Type := mk {
  id : string;
  teacherId : string;
  date : string;
  checkInTime : Date;
  checkOutTime : option Date;
  hoursWorked : option string;
  billableHours : option string;
  pay : option string
}.
End TimeEntry.

Module InsertTimeEntry.
Record t : Type := mk {
  teacherId : string;
  date : string;
  checkInTime : Date;
  checkOutTime : option Date
}.
End InsertTimeEntry.

Module PartialTimeEntry.
Record t : Type := mk {
  id : option string;
  teacherId : option string;
  date : option string;
  checkInTime : option Date;
  checkOutTime : option (option Date);
  hoursWorked : option (option string);
  billableHours : option (option string);
  pay : option (option string)
}.
End PartialTimeEntry.

Module AppSettings.
Record t : Type := mk {
  id : string;
  pinHash : string
}.
End AppSettings.

(** Object spread [{ ...obj, ...updates }]. *)
Definition over {A : Type} (old : A) (upd : option A) : A :=
  match upd with Some v => v | None => old end.

Definition spreadTeacher (teacher : Teacher.t) (updates : PartialTeacher.t)
  : Teacher.t :=
  {| Teacher.id := over (Teacher.id teacher) (PartialTeacher.id updates);
     Teacher.name := over (Teacher.name teacher) (PartialTeacher.name updates);
     Teacher.hourlyRate :=
       over (Teacher.hourlyRate teacher) (PartialTeacher.hourlyRate updates);
     Teacher.maxBillableHours :=
       over (Teacher.maxBillableHours teacher)
            (PartialTeacher.maxBillableHours updates);
     Teacher.isCheckedIn :=
       over (Teacher.isCheckedIn teacher) (PartialTeacher.isCheckedIn updates);
     Teacher.currentCheckInTime :=
       over (Teacher.currentCheckInTime teacher)
            (PartialTeacher.currentCheckInTime updates) |}.

Definition spreadTimeEntry (e : TimeEntry.t) (updates : PartialTimeEntry.t)
  : TimeEntry.t :=
  {| TimeEntry.id := over (TimeEntry.id e) (PartialTimeEntry.id updates);
     TimeEntry.teacherId :=
       over (TimeEntry.teacherId e) (PartialTimeEntry.teacherId updates);
     TimeEntry.date := over (TimeEntry.date e) (PartialTimeEntry.date updates);
     TimeEntry.checkInTime :=
       over (TimeEntry.checkInTime e) (PartialTimeEntry.checkInTime updates);
     TimeEntry.checkOutTime :=
       over (TimeEntry.checkOutTime e) (PartialTimeEntry.checkOutTime updates);
     TimeEntry.hoursWorked :=
       over (TimeEntry.hoursWorked e) (PartialTimeEntry.hoursWorked updates);
     TimeEntry.billableHours :=
       over (TimeEntry.billableHours e)
            (PartialTimeEntry.billableHours updates);
     TimeEntry.pay := over (TimeEntry.pay e) (PartialTimeEntry.pay updates) |}.

(** ** What a request receives from outside the program *)

Record Env : Type := mkEnv {
  now : Date;            (** the value of [new Date()] *)
  randomUUID : string;   (** the value of [randomUUID()] *)
  salt : string          (** the salt [bcrypt.hash] draws *)
}.

(** ** State monad *)

Definition State (S A : Type) : Type := S -> A * S.

Definition ret {S A : Type} (a : A) : State S A := fun s => (a, s).

Definition bind {S A B : Type} (m : State S A) (k : A -> State S B)
  : State S B :=
  fun s => let (a, s') := m s in k a s'.

Notation "x <- m ;; k" := (bind m (fun x => k))
  (at level 61, m at next level, right associativity).

Definition gets {S A : Type} (f : S -> A) : State S A := fun s => (f s, s).

Definition modify {S : Type} (f : S -> S) : State S unit :=
  fun s => (tt, f s).

(** ** [MemStorage] (server/storage.ts) *)

Module MemStorage.

Record t : Type := mk {
  teachers : JsMap.t Teacher.t;
  timeEntries : JsMap.t TimeEntry.t;
  appSettings : option AppSettings.t
}.

(** The constructor. *)
Definition new : t := mk JsMap.empty JsMap.empty None.

Definition set_teachers (m : JsMap.t Teacher.t) (this : t) : t :=
  mk m (timeEntries this) (appSettings this).

Definition set_timeEntries (m : JsMap.t TimeEntry.t) (this : t) : t :=
  mk (teachers this) m (appSettings this).

Definition set_appSettings (a : option AppSettings.t) (this : t) : t :=
  mk (teachers this) (timeEntries this) a.

Section Methods.
Context `{Runtime}.

(* Teachers *)

Definition getTeachers : State t (list Teacher.t) :=
  gets (fun this => JsMap.values (teachers this)).

Definition getTeacher (id : string) : State t (option Teacher.t) :=
  gets (fun this => JsMap.get id (teachers this)).

Definition createTeacher (env : Env) (insertTeacher : InsertTeacher.t)
  : State t Teacher.t :=
  let id := randomUUID env in
  let teacher :=
    {| Teacher.id := id;
       Teacher.name := InsertTeacher.name insertTeacher;
       Teacher.hourlyRate := InsertTeacher.hourlyRate insertTeacher;
       Teacher.maxBillableHours := InsertTeacher.maxBillableHours insertTeacher;
       Teacher.isCheckedIn := Some false;
       Teacher.currentCheckInTime := None |} in
  _ <- modify (fun this => set_teachers (JsMap.set id teacher (teachers this)) this) ;;
  ret teacher.

Definition updateTeacher (id : string) (updates : PartialTeacher.t)
  : State t (option Teacher.t) :=
  teacher <- gets (fun this => JsMap.get id (teachers this)) ;;
  match teacher with
  | None => ret None
  | Some teacher =>
      let updatedTeacher := spreadTeacher teacher updates in
      _ <- modify (fun this =>
             set_teachers (JsMap.set id updatedTeacher (teachers this)) this) ;;
      ret (Some updatedTeacher)
  end.

Definition deleteTeacher (id : string) : State t bool :=
  existed <- gets (fun this => JsMap.has id (teachers this)) ;;
  _ <- modify (fun this => set_teachers (JsMap.delete id (teachers this)) this) ;;
  ret existed.

(* Time Entries *)

Definition getTimeEntries : State t (list TimeEntry.t) :=
  gets (fun this => JsMap.values (timeEntries this)).

Definition getTimeEntriesByTeacher (teacherId : string)
  : State t (list TimeEntry.t) :=
  gets (fun this =>
    filter (fun entry => String.eqb (TimeEntry.teacherId entry) teacherId)
           (JsMap.values (timeEntries this))).

Definition getTimeEntriesByDate (date : string) : State t (list TimeEntry.t) :=
  gets (fun this =>
    filter (fun entry => String.eqb (TimeEntry.date entry) date)
           (JsMap.values (timeEntries this))).

Definition getTimeEntry (id : string) : State t (option TimeEntry.t) :=
  gets (fun this => JsMap.get id (timeEntries this)).

Definition createTimeEntry (env : Env) (insertTimeEntry : InsertTimeEntry.t)
  : State t TimeEntry.t :=
  let id := randomUUID env in
  let timeEntry :=
    {| TimeEntry.id := id;
       TimeEntry.teacherId := InsertTimeEntry.teacherId insertTimeEntry;
       TimeEntry.date := InsertTimeEntry.date insertTimeEntry;
       TimeEntry.checkInTime := InsertTimeEntry.checkInTime insertTimeEntry;
       (* insertTimeEntry.checkOutTime || null: a Date is truthy *)
       TimeEntry.checkOutTime := InsertTimeEntry.checkOutTime insertTimeEntry;
       TimeEntry.hoursWorked := None;
       TimeEntry.billableHours := None;
       TimeEntry.pay := None |} in
  _ <- modify (fun this =>
         set_timeEntries (JsMap.set id timeEntry (timeEntries this)) this) ;;
  ret timeEntry.

Definition updateTimeEntry (id : string) (updates : PartialTimeEntry.t)
  : State t (option TimeEntry.t) :=
  timeEntry <- gets (fun this => JsMap.get id (timeEntries this)) ;;
  match timeEntry with
  | None => ret None
  | Some timeEntry =>
      let updatedTimeEntry := spreadTimeEntry timeEntry updates in
      _ <- modify (fun this =>
             set_timeEntries
               (JsMap.set id updatedTimeEntry (timeEntries this)) this) ;;
      ret (Some updatedTimeEntry)
  end.

(* App Settings *)

Definition getAppSettings : State t (option AppSettings.t) :=
  gets appSettings.

Definition createAppSettings (env : Env) (pinHash : string)
  : State t AppSettings.t :=
  let id := randomUUID env in
  let settings := {| AppSettings.id := id; AppSettings.pinHash := pinHash |} in
  _ <- modify (set_appSettings (Some settings)) ;;
  ret settings.

Definition updateAppSettings (pinHash : string)
  : State t (option AppSettings.t) :=
  settings <- gets appSettings ;;
  match settings with
  | None => ret None
  | Some settings =>
      let settings' :=
        {| AppSettings.id := AppSettings.id settings;
           AppSettings.pinHash := pinHash |} in
      _ <- modify (set_appSettings (Some settings')) ;;
      ret (Some settings')
  end.

Definition validatePin (pin : string) : State t bool :=
  settings <- gets appSettings ;;
  match settings with
  | None => ret false
  | Some settings => ret (bcrypt_compare pin (AppSettings.pinHash settings))
  end.

Definition resetAllData : State t unit :=
  modify (fun _ => mk JsMap.empty JsMap.empty None).

End Methods.
End MemStorage.

(** ** Requests and responses *)

(** A row of the timesheet export. *)
Module ExportRow.
Record t : Type := mk {
  teacherName : string;
  date : string;
  checkInTime : Date;
  checkOutTime : option Date;
  hoursWorked : option string;
  billableHours : option string;
  hourlyRate : string;
  pay : option string
}.
End ExportRow.

Inductive Body : Type :=
| Message (message : string)
| HasPin (hasPin : bool)
| IsAdmin (isAdmin : bool)
| OneTeacher (teacher : option Teacher.t)
| TeacherList (teachers : list Teacher.t)
| TimeEntryList (entries : list TimeEntry.t)
| ExportData (rows : list ExportRow.t).

Record Response : Type := mkResponse {
  status : Z;
  body : Body
}.

(** [res.status(code).json({ message })] and [res.json(payload)]. *)
Definition fail (code : Z) (message : string) : Response :=
  mkResponse code (Message message).

Definition json (payload : Body) : Response := mkResponse 200 payload.

(** The JSON body of the two PIN routes: [pin] is [None] when the key is
    missing or is not a string. *)
Record PinBody : Type := mkPinBody { pin : option string }.

(** [pinSetupSchema.parse] and [pinValidationSchema.parse]:
    [z.object({ pin: z.string().min(4).max(6) })]; [None] when it throws.
    The length is counted in characters of the string, which for the
    ASCII PINs of the dashboard is the [length] zod compares. *)
Definition pinSchema_parse (b : PinBody) : option string :=
  match pin b with
  | Some p =>
      if (4 <=? length p)%nat && (length p <=? 6)%nat then Some p else None
  | None => None
  end.

(** The JSON body of teacher creation, each key [None] when missing or not
    a string (decimal columns are strings in the insert schema). *)
Record TeacherBody : Type := mkTeacherBody {
  body_name : option string;
  body_hourlyRate : option string;
  body_maxBillableHours : option string
}.

(** [insertTeacherSchema.parse]; [None] when it throws. *)
Definition insertTeacherSchema_parse (b : TeacherBody)
  : option InsertTeacher.t :=
  match body_name b, body_hourlyRate b, body_maxBillableHours b with
  | Some n, Some r, Some m => Some (InsertTeacher.mk n r m)
  | _, _, _ => None
  end.

(** The query string of the export, as the client sends it. *)
Record ExportQuery : Type := mkExportQuery {
  month : option string;
  year : option string
}.

Inductive Request : Type :=
| GetPinSetup
| PostSetupPin (b : PinBody)
| PostValidatePin (b : PinBody)
| GetCheckAdmin
| PostLogout
| PostReset
| GetTeachers
| PostTeachers (b : TeacherBody)
| PatchTeacher (id : string) (updates : PartialTeacher.t)
| DeleteTeacher (id : string)
| PostCheckin (id : string)
| PostCheckout (id : string)
| GetTimeEntries (teacherId date : option string)
| GetExportTimesheet (q : ExportQuery).

(** ** [Array.prototype.sort] with a compare function

    The sort is stable; an element moves behind another only when the
    compare function is positive on the pair, and NaN counts as 0.  For a
    consistent compare function every stable sort returns this list. *)

Module JsArray.
Section Sort.
Context {A : Type} (compareFn : A -> A -> option Z).

Definition goesAfter (x y : A) : bool :=
  match compareFn x y with
  | Some v => 0 <? v
  | None => false
  end.

Fixpoint insert (x : A) (l : list A) : list A :=
  match l with
  | [] => [x]
  | y :: l' => if goesAfter x y then y :: insert x l' else x :: l
  end.

Definition sort (l : list A) : list A := fold_right insert [] l.

End Sort.
End JsArray.

(** ** The route handlers (server/routes.ts) *)

Module Routes.

(** The process-wide [storage] and the session of the caller. *)
Record Server : Type := mkServer {
  storage : MemStorage.t;
  session_isAdmin : bool
}.

(** [await storage.method(...)] *)
Definition await {A : Type} (m : State MemStorage.t A) : State Server A :=
  fun srv =>
    let (a, st) := m (storage srv) in (a, mkServer st (session_isAdmin srv)).

(** [(req as any).session.isAdmin = b] *)
Definition setAdmin (b : bool) : State Server unit :=
  modify (fun srv => mkServer (storage srv) b).

Section Handlers.
Context `{Runtime}.

Definition getPinSetup : State Server Response :=
  settings <- await MemStorage.getAppSettings ;;
  ret (json (HasPin (truthy_opt settings))).

Definition setupPin (env : Env) (b : PinBody) : State Server Response :=
  match pinSchema_parse b with
  | None => ret (fail 400 "Invalid PIN format")
  | Some pin =>
      settings <- await MemStorage.getAppSettings ;;
      if truthy_opt settings then ret (fail 400 "PIN already set up")
      else
        let pinHash := bcrypt_hash pin (salt env) in
        _ <- await (MemStorage.createAppSettings env pinHash) ;;
        ret (json (Message "PIN set up successfully"))
  end.

Definition validatePinRoute (b : PinBody) : State Server Response :=
  match pinSchema_parse b with
  | None => ret (fail 400 "Invalid PIN format")
  | Some pin =>
      isValid <- await (MemStorage.validatePin pin) ;;
      if negb isValid then ret (fail 401 "Invalid PIN")
      else
        _ <- setAdmin true ;;
        ret (json (Message "PIN validated successfully"))
  end.

Definition checkAdmin : State Server Response :=
  isAdmin <- gets session_isAdmin ;;
  ret (json (IsAdmin isAdmin)).

Definition logout : State Server Response :=
  _ <- setAdmin false ;;
  ret (json (Message "Logged out successfully")).

Definition reset : State Server Response :=
  _ <- await MemStorage.resetAllData ;;
  _ <- setAdmin false ;;
  ret (json (Message "All data reset successfully")).

Definition listTeachers : State Server Response :=
  teachers <- await MemStorage.getTeachers ;;
  ret (json (TeacherList teachers)).

Definition createTeacherRoute (env : Env) (b : TeacherBody)
  : State Server Response :=
  isAdmin <- gets session_isAdmin ;;
  if negb isAdmin then ret (fail 403 "Admin access required")
  else
    match insertTeacherSchema_parse b with
    | None => ret (fail 400 "Invalid teacher data")
    | Some teacherData =>
        teacher <- await (MemStorage.createTeacher env teacherData) ;;
        ret (mkResponse 201 (OneTeacher (Some teacher)))
    end.

Definition patchTeacher (id : string) (updates : PartialTeacher.t)
  : State Server Response :=
  isAdmin <- gets session_isAdmin ;;
  if negb isAdmin then ret (fail 403 "Admin access required")
  else
    teacher <- await (MemStorage.updateTeacher id updates) ;;
    match teacher with
    | None => ret (fail 404 "Teacher not found")
    | Some teacher => ret (json (OneTeacher (Some teacher)))
    end.

Definition deleteTeacherRoute (id : string) : State Server Response :=
  isAdmin <- gets session_isAdmin ;;
  if negb isAdmin then ret (fail 403 "Admin access required")
  else
    deleted <- await (MemStorage.deleteTeacher id) ;;
    if negb deleted then ret (fail 404 "Teacher not found")
    else ret (json (Message "Teacher deleted successfully")).

Definition checkin (env : Env) (id : string) : State Server Response :=
  teacher <- await (MemStorage.getTeacher id) ;;
  match teacher with
  | None => ret (fail 404 "Teacher not found")
  | Some teacher =>
      if truthy_bool (Teacher.isCheckedIn teacher)
      then ret (fail 400 "Teacher already checked in")
      else
        let now := now env in
        updatedTeacher <- await (MemStorage.updateTeacher id
          {| PartialTeacher.id := None;
             PartialTeacher.name := None;
             PartialTeacher.hourlyRate := None;
             PartialTeacher.maxBillableHours := None;
             PartialTeacher.isCheckedIn := Some (Some true);
             PartialTeacher.currentCheckInTime := Some (Some now) |}) ;;
        (* Create time entry *)
        let today := IsoDate.toISODate now in
        _ <- await (MemStorage.createTimeEntry env
          {| InsertTimeEntry.teacherId := id;
             InsertTimeEntry.date := today;
             InsertTimeEntry.checkInTime := now;
             InsertTimeEntry.checkOutTime := None |}) ;;
        ret (json (OneTeacher updatedTeacher))
  end.

(** The three numbers a check-out derives. *)
Definition hoursWorkedOf (now checkInTime : Date) : num :=
  num_div (num_sub (getTime now) (getTime checkInTime))
          (num_of_Z (1000 * 60 * 60)).

Definition billableHoursOf (teacher : Teacher.t) (hoursWorked : num) : num :=
  let maxHours := parseFloat (Teacher.maxBillableHours teacher) in
  Math_min hoursWorked maxHours.

Definition payOf (teacher : Teacher.t) (billableHours : num) : num :=
  num_mul billableHours (parseFloat (Teacher.hourlyRate teacher)).

(** [entry => entry.date === today && !entry.checkOutTime] *)
Definition isOpenOn (today : string) (entry : TimeEntry.t) : bool :=
  String.eqb (TimeEntry.date entry) today
  && negb (truthy_opt (TimeEntry.checkOutTime entry)).

Definition checkout (env : Env) (id : string) : State Server Response :=
  teacher <- await (MemStorage.getTeacher id) ;;
  match teacher with
  | None => ret (fail 404 "Teacher not found")
  | Some teacher =>
      if negb (truthy_bool (Teacher.isCheckedIn teacher))
      then ret (fail 400 "Teacher not checked in")
      else
        match Teacher.currentCheckInTime teacher with
        | None => ret (fail 400 "Teacher not checked in")
        | Some currentCheckInTime =>
            let now := now env in
            let checkInTime := currentCheckInTime in
            let hoursWorked := hoursWorkedOf now checkInTime in
            let billableHours := billableHoursOf teacher hoursWorked in
            let pay := payOf teacher billableHours in
            (* Update teacher *)
            updatedTeacher <- await (MemStorage.updateTeacher id
              {| PartialTeacher.id := None;
                 PartialTeacher.name := None;
                 PartialTeacher.hourlyRate := None;
                 PartialTeacher.maxBillableHours := None;
                 PartialTeacher.isCheckedIn := Some (Some false);
                 PartialTeacher.currentCheckInTime := Some None |}) ;;
            (* Find and update time entry *)
            let today := IsoDate.toISODate now in
            timeEntries <- await (MemStorage.getTimeEntriesByTeacher id) ;;
            let todayEntry := find (isOpenOn today) timeEntries in
            _ <- match todayEntry with
                 | Some todayEntry =>
                     _ <- await (MemStorage.updateTimeEntry
                       (TimeEntry.id todayEntry)
                       {| PartialTimeEntry.id := None;
                          PartialTimeEntry.teacherId := None;
                          PartialTimeEntry.date := None;
                          PartialTimeEntry.checkInTime := None;
                          PartialTimeEntry.checkOutTime := Some (Some now);
                          PartialTimeEntry.hoursWorked :=
                            Some (Some (num_toString hoursWorked));
                          PartialTimeEntry.billableHours :=
                            Some (Some (num_toString billableHours));
                          PartialTimeEntry.pay :=
                            Some (Some (num_toString pay)) |}) ;;
                     ret tt
                 | None => ret tt
                 end ;;
            ret (json (OneTeacher updatedTeacher))
        end
  end.

(** A query parameter that is present and not the empty string. *)
Definition given (param : option string) : option string :=
  match param with
  | Some v => if truthy_string v then Some v else None
  | None => None
  end.

Definition listTimeEntries (teacherId date : option string)
  : State Server Response :=
  entries <-
    match given teacherId, given date with
    | Some teacherId, _ => await (MemStorage.getTimeEntriesByTeacher teacherId)
    | None, Some date => await (MemStorage.getTimeEntriesByDate date)
    | None, None => await MemStorage.getTimeEntries
    end ;;
  ret (json (TimeEntryList entries)).

(** The export's [map] callback. *)
Definition exportRow (teachers : list Teacher.t) (entry : TimeEntry.t)
  : ExportRow.t :=
  let teacher :=
    find (fun t => String.eqb (Teacher.id t) (TimeEntry.teacherId entry))
         teachers in
  {| ExportRow.teacherName :=
       match teacher with
       | Some t => if truthy_string (Teacher.name t) then Teacher.name t
                   else "Unknown"
       | None => "Unknown"
       end;
     ExportRow.date := TimeEntry.date entry;
     ExportRow.checkInTime := TimeEntry.checkInTime entry;
     ExportRow.checkOutTime := TimeEntry.checkOutTime entry;
     ExportRow.hoursWorked := TimeEntry.hoursWorked entry;
     ExportRow.billableHours := TimeEntry.billableHours entry;
     ExportRow.hourlyRate :=
       match teacher with
       | Some t => if truthy_string (Teacher.hourlyRate t)
                   then Teacher.hourlyRate t else "0"
       | None => "0"
       end;
     ExportRow.pay := TimeEntry.pay entry |}.

(** The export's compare function:
    [new Date(b.date).getTime() - new Date(a.date).getTime()]. *)
Definition byDateDesc (a b : ExportRow.t) : option Z :=
  match Date_parse (ExportRow.date b), Date_parse (ExportRow.date a) with
  | Some tb, Some ta => Some (tb - ta)
  | _, _ => None
  end.

(** The export never reads [req.query]. *)
Definition exportTimesheet (q : ExportQuery) : State Server Response :=
  isAdmin <- gets session_isAdmin ;;
  if negb isAdmin then ret (fail 403 "Admin access required")
  else
    teachers <- await MemStorage.getTeachers ;;
    timeEntries <- await MemStorage.getTimeEntries ;;
    let exportData :=
      JsArray.sort byDateDesc
        (map (exportRow teachers)
             (filter (fun entry => truthy_opt (TimeEntry.checkOutTime entry))
                     timeEntries)) in
    ret (json (ExportData exportData)).

(** Dispatch of a request to its handler. *)
Definition handle (env : Env) (req : Request) : State Server Response :=
  match req with
  | GetPinSetup => getPinSetup
  | PostSetupPin b => setupPin env b
  | PostValidatePin b => validatePinRoute b
  | GetCheckAdmin => checkAdmin
  | PostLogout => logout
  | PostReset => reset
  | GetTeachers => listTeachers
  | PostTeachers b => createTeacherRoute env b
  | PatchTeacher id updates => patchTeacher id updates
  | DeleteTeacher id => deleteTeacherRoute id
  | PostCheckin id => checkin env id
  | PostCheckout id => checkout env id
  | GetTimeEntries teacherId date => listTimeEntries teacherId date
  | GetExportTimesheet q => exportTimesheet q
  end.

(** The server after a sequence of requests, oldest first. *)
Fixpoint run (reqs : list (Env * Request)) (srv : Server) : Server :=
  match reqs with
  | [] => srv
  | (env, req) :: reqs' => run reqs' (snd (handle env req srv))
  end.

(** The server at start-up: an empty store, nobody logged in. *)
Definition initial : Server := mkServer MemStorage.new false.

End Handlers.
End Routes.

(** ** Predicates the properties are stated with *)

(** The keys of a map are distinct. *)
Fixpoint distinct (ks : list string) : bool :=
  match ks with
  | [] => true
  | k :: ks' => negb (existsb (String.eqb k) ks') && distinct ks'
  end.

(** Every time entry is stored under its own id. *)
Definition keyedById (m : JsMap.t TimeEntry.t) : bool :=
  forallb (fun kv => String.eqb (TimeEntry.id (snd kv)) (fst kv)) m.

(** Shape of the store that [MemStorage]'s methods maintain. *)
Definition wellFormed (this : MemStorage.t) : bool :=
  distinct (JsMap.keys (MemStorage.teachers this))
  && distinct (JsMap.keys (MemStorage.timeEntries this))
  && keyedById (MemStorage.timeEntries this).

(** [isCheckedIn == true] iff [currentCheckInTime != null]. *)
Definition statusConsistent (teacher : Teacher.t) : bool :=
  Bool.eqb (truthy_bool (Teacher.isCheckedIn teacher))
           (truthy_opt (Teacher.currentCheckInTime teacher)).

(** An entry whose [checkOutTime] is null. *)
Definition isOpen (entry : TimeEntry.t) : bool :=
  negb (truthy_opt (TimeEntry.checkOutTime entry)).

(** The open sessions of a teacher. *)
Definition openEntries (teacherId : string) (this : MemStorage.t)
  : list TimeEntry.t :=
  filter (fun entry =>
            String.eqb (TimeEntry.teacherId entry) teacherId && isOpen entry)
         (JsMap.values (MemStorage.timeEntries this)).

(** A time entry after a check-out at [now] has finalized it. *)
Definition finalized (entry : TimeEntry.t) (now : Date)
  (hoursWorked billableHours pay : string) : TimeEntry.t :=
  {| TimeEntry.id := TimeEntry.id entry;
     TimeEntry.teacherId := TimeEntry.teacherId entry;
     TimeEntry.date := TimeEntry.date entry;
     TimeEntry.checkInTime := TimeEntry.checkInTime entry;
     TimeEntry.checkOutTime := Some now;
     TimeEntry.hoursWorked := Some hoursWorked;
     TimeEntry.billableHours := Some billableHours;
     TimeEntry.pay := Some pay |}.

(** A teacher after a check-out. *)
Definition checkedOut (teacher : Teacher.t) : Teacher.t :=
  {| Teacher.id := Teacher.id teacher;
     Teacher.name := Teacher.name teacher;
     Teacher.hourlyRate := Teacher.hourlyRate teacher;
     Teacher.maxBillableHours := Teacher.maxBillableHours teacher;
     Teacher.isCheckedIn := Some false;
     Teacher.currentCheckInTime := None |}.

(** The row the export makes of an entry whose teacher is not found. *)
Definition orphanRow (entry : TimeEntry.t) : ExportRow.t :=
  {| ExportRow.teacherName := "Unknown";
     ExportRow.date := TimeEntry.date entry;
     ExportRow.checkInTime := TimeEntry.checkInTime entry;
     ExportRow.checkOutTime := TimeEntry.checkOutTime entry;
     ExportRow.hoursWorked := TimeEntry.hoursWorked entry;
     ExportRow.billableHours := TimeEntry.billableHours entry;
     ExportRow.hourlyRate := "0";
     ExportRow.pay := TimeEntry.pay entry |}.

(** Decimal digits as a number; [None] on anything else. *)
Definition digitValue (c : ascii) : option Z :=
  let n := nat_of_ascii c in
  if (48 <=? n)%nat && (n <=? 57)%nat then Some (Z.of_nat n - 48) else None.

Fixpoint digitsValue (s : string) (acc : Z) : option Z :=
  match s with
  | EmptyString => Some acc
  | String c s' =>
      match digitValue c with
      | Some d => digitsValue s' (10 * acc + d)
      | None => None
      end
  end.

Definition wholeNumber (s : string) : option Z :=
  match s with
  | EmptyString => None
  | _ => digitsValue s 0
  end.

(** The period a timesheet filter asks for, in the words of the
    specification: the month and the year components of a [YYYY-MM-DD]
    date equal the ones given; a component that is not given matches. *)
Definition spec_inPeriod (q : ExportQuery) (date : string) : bool :=
  let sameNumber (given : option string) (component : string) : bool :=
    match given with
    | None => true
    | Some v =>
        match wholeNumber v, wholeNumber component with
        | Some a, Some b => a =? b
        | _, _ => false
        end
    end in
  sameNumber (year q) (substring 0 4 date)
  && sameNumber (month q) (substring 5 2 date).

(** The date of row [a] parses to an instant not before that of row [b]. *)
Definition notBefore `{Runtime} (a b : ExportRow.t) : Prop :=
  match Date_parse (ExportRow.date a), Date_parse (ExportRow.date b) with
  | Some ta, Some tb => tb <= ta
  | _, _ => False
  end.

(** Descending order of the export by the time value of [date]. *)
Definition dateDescending `{Runtime} (rows : list ExportRow.t) : Prop :=
  StronglySorted notBefore rows.

(** One open session per checked-in teacher and none otherwise: two open
    entries of one teacher are the same entry; an open entry belongs to a
    teacher who is checked in, since the instant its date is taken from;
    a teacher who is checked in has an open entry. *)
Definition oneOpenSession (this : MemStorage.t) : Prop :=
  (forall e1 e2,
     In e1 (JsMap.values (MemStorage.timeEntries this)) ->
     In e2 (JsMap.values (MemStorage.timeEntries this)) ->
     isOpen e1 = true -> isOpen e2 = true ->
     TimeEntry.teacherId e1 = TimeEntry.teacherId e2 -> e1 = e2)
  /\ (forall e,
        In e (JsMap.values (MemStorage.timeEntries this)) ->
        isOpen e = true ->
        exists teacher checkInTime,
          JsMap.get (TimeEntry.teacherId e) (MemStorage.teachers this)
          = Some teacher
          /\ Teacher.isCheckedIn teacher = Some true
          /\ Teacher.currentCheckInTime teacher = Some checkInTime
          /\ TimeEntry.date e = IsoDate.toISODate checkInTime)
  /\ (forall id teacher,
        JsMap.get id (MemStorage.teachers this) = Some teacher ->
        Teacher.isCheckedIn teacher = Some true ->
        exists e,
          In e (JsMap.values (MemStorage.timeEntries this))
          /\ isOpen e = true /\ TimeEntry.teacherId e = id).

(** Requests under which the sessions stay in order: no admin edit and no
    deletion, a new identifier where one is drawn, and a check-out on the
    calendar date (UTC) of the check-in. *)
Definition orderly (env : Env) (req : Request) (this : MemStorage.t) : Prop :=
  match req with
  | PatchTeacher _ _ => False
  | DeleteTeacher _ => False
  | PostTeachers _ =>
      JsMap.get (randomUUID env) (MemStorage.teachers this) = None
  | PostCheckin _ =>
      JsMap.get (randomUUID env) (MemStorage.timeEntries this) = None
  | PostCheckout id =>
      forall teacher checkInTime,
        JsMap.get id (MemStorage.teachers this) = Some teacher ->
        Teacher.currentCheckInTime teacher = Some checkInTime ->
        IsoDate.toISODate (now env) = IsoDate.toISODate checkInTime
  | _ => True
  end.

(** Every teacher in the store is [statusConsistent]. *)
Definition allConsistent (this : MemStorage.t) : bool :=
  forallb statusConsistent (JsMap.values (MemStorage.teachers this)).

(** An admin edit that carries isCheckedIn or currentCheckInTime. *)
Definition touchesStatus (req : Request) : bool :=
  match req with
  | PatchTeacher _ updates =>
      truthy_opt (PartialTeacher.isCheckedIn updates)
      || truthy_opt (PartialTeacher.currentCheckInTime updates)
  | _ => false
  end.

(** Stores the server can be brought to: from start-up, by any request of
    any caller, logged in or not. *)
Inductive reachable `{Runtime} : MemStorage.t -> Prop :=
| reachable_new : reachable MemStorage.new
| reachable_step (this : MemStorage.t) (isAdmin : bool) (env : Env)
    (req : Request) :
    reachable this ->
    reachable
      (Routes.storage
         (snd (Routes.handle env req (Routes.mkServer this isAdmin)))).

(** Every request of a run is [orderly] in the store it meets. *)
Fixpoint orderlyRun `{Runtime} (reqs : list (Env * Request))
  (srv : Routes.Server) : Prop :=
  match reqs with
  | [] => True
  | (env, req) :: reqs' =>
      orderly env req (Routes.storage srv)
      /\ orderlyRun reqs' (snd (Routes.handle env req srv))
  end.

(** The requests whose handler starts with the admin check. *)
Definition adminOnly (req : Request) : bool :=
  match req with
  | PostTeachers _ | PatchTeacher _ _ | DeleteTeacher _
  | GetExportTimesheet _ => true
  | _ => false
  end.

(** Every teacher is stored under its own id. *)
Definition teachersKeyedById (this : MemStorage.t) : bool :=
  forallb (fun kv => String.eqb (Teacher.id (snd kv)) (fst kv))
          (MemStorage.teachers this).

(** A teacher after a check-in at [now]. *)
Definition checkedInAt (teacher : Teacher.t) (now : Date) : Teacher.t :=
  {| Teacher.id := Teacher.id teacher;
     Teacher.name := Teacher.name teacher;
     Teacher.hourlyRate := Teacher.hourlyRate teacher;
     Teacher.maxBillableHours := Teacher.maxBillableHours teacher;
     Teacher.isCheckedIn := Some true;
     Teacher.currentCheckInTime := Some now |}.

(** The entry a check-in of teacher [id] creates. *)
Definition openedEntry (env : Env) (id : string) : TimeEntry.t :=
  {| TimeEntry.id := randomUUID env;
     TimeEntry.teacherId := id;
     TimeEntry.date := IsoDate.toISODate (now env);
     TimeEntry.checkInTime := now env;
     TimeEntry.checkOutTime := None;
     TimeEntry.hoursWorked := None;
     TimeEntry.billableHours := None;
     TimeEntry.pay := None |}.

(** The row the export makes of an entry and the teacher it finds. *)
Definition joinedRow (teacher : Teacher.t) (entry : TimeEntry.t)
  : ExportRow.t :=
  {| ExportRow.teacherName := Teacher.name teacher;
     ExportRow.date := TimeEntry.date entry;
     ExportRow.checkInTime := TimeEntry.checkInTime entry;
     ExportRow.checkOutTime := TimeEntry.checkOutTime entry;
     ExportRow.hoursWorked := TimeEntry.hoursWorked entry;
     ExportRow.billableHours := TimeEntry.billableHours entry;
     ExportRow.hourlyRate := Teacher.hourlyRate teacher;
     ExportRow.pay := TimeEntry.pay entry |}.

(** ** The client: the PIN form and the session timer

    [AdminLoginModal.handleSubmit] (the admin login modal) and
    [TeacherInterface.formatTimer] (the check-in page).  The timer works
    on whole numbers of milliseconds; below 2^53 the doubles of the
    division, the remainder and [Math.floor] are these integers. *)

Module Client.

(** What a submit of the form does: a toast, or a request. *)
Inductive Submitted : Type :=
| Toast (title description : string)
| Mutate (req : Request).

Definition handleSubmit (isSetup : bool) (pin : string) : Submitted :=
  if (String.length pin <? 4)%nat || (6 <? String.length pin)%nat
  then Toast "Error" "PIN must be 4-6 digits"
  else if isSetup then Mutate (PostSetupPin (mkPinBody (Some pin)))
  else Mutate (PostValidatePin (mkPinBody (Some pin))).

(** [n.toString()] of a whole number. *)
Definition numberToString (n : Z) : string :=
  DecimalString.NilZero.string_of_int (Z.to_int n).

(** [s.padStart(2, '0')] *)
Definition padStart2 (s : string) : string :=
  match String.length s with
  | O => "00"
  | S O => String.append "0" s
  | _ => s
  end.

(** The hours, minutes and seconds [formatTimer] prints: [Math.floor] of
    the quotients, [%] being the remainder with the sign of the dividend. *)
Definition timerFields (elapsed : Z) : Z * Z * Z :=
  let hours := elapsed / (1000 * 60 * 60) in
  let minutes := Z.rem elapsed (1000 * 60 * 60) / (1000 * 60) in
  let seconds := Z.rem elapsed (1000 * 60) / 1000 in
  (hours, minutes, seconds).

Definition formatTimer (currentTime checkInTime : Date) : string :=
  let start := checkInTime in
  let elapsed := currentTime - start in
  let '(hours, minutes, seconds) := timerFields elapsed in
  String.append (padStart2 (numberToString hours))
    (String.append ":"
       (String.append (padStart2 (numberToString minutes))
          (String.append ":" (padStart2 (numberToString seconds))))).

End Client.

(** ** A runtime to run the handlers on

    Numbers are whole numbers or NaN ([None]); on digit strings and on
    quotients that come out whole, below 2^53, this is what the doubles
    give.  Dates are read in the form [YYYY-MM-DD] only.  The hash is a
    stand-in that [bcrypt_compare] recognizes. *)

Module WholeRuntime.

Definition lift2 (f : Z -> Z -> Z) (a b : option Z) : option Z :=
  match a, b with
  | Some x, Some y => Some (f x y)
  | _, _ => None
  end.

Definition div (a b : option Z) : option Z :=
  match a, b with
  | Some x, Some y => if y =? 0 then None else Some (x / y)
  | _, _ => None
  end.

Definition toString (n : option Z) : string :=
  match n with
  | Some z => DecimalString.NilZero.string_of_int (Z.to_int z)
  | None => "NaN"
  end.

Definition days_from_civil (y m d : Z) : Z :=
  let y' := if m <=? 2 then y - 1 else y in
  let era := y' / 400 in
  let yoe := y' - era * 400 in
  let doy := (153 * (if 2 <? m then m - 3 else m + 9) + 2) / 5 + d - 1 in
  let doe := yoe * 365 + yoe / 4 - yoe / 100 + doy in
  era * 146097 + doe - 719468.

Definition parseDate (s : string) : option Z :=
  match wholeNumber (substring 0 4 s), wholeNumber (substring 5 2 s),
        wholeNumber (substring 8 2 s) with
  | Some y, Some m, Some d =>
      let t := days_from_civil y m d * IsoDate.msPerDay in
      if String.eqb (IsoDate.toISODate t) s then Some t else None
  | _, _, _ => None
  end.

Definition hash (pin salt : string) : string :=
  String.append "hash:" pin.

Definition compare (pin pinHash : string) : bool :=
  String.eqb (hash pin "") pinHash.

Definition runtime : Runtime := {|
  num := option Z;
  num_of_Z := Some;
  num_sub := lift2 Z.sub;
  num_div := div;
  num_mul := lift2 Z.mul;
  Math_min := lift2 Z.min;
  parseFloat := wholeNumber;
  num_toString := toString;
  Date_parse := parseDate;
  bcrypt_hash := hash;
  bcrypt_compare := compare
|}.

End WholeRuntime.

(** ** Traces used in the examples *)

Module Example.

Definition env (t : Date) (uuid : string) : Env := mkEnv t uuid "salt".

(** 2024-01-01T00:00:00Z *)
Definition jan1 : Date := 1704067200000.
Definition hour : Z := 3600000.
Definition day : Z := 24 * hour.

Definition pinBody : PinBody := mkPinBody (Some "1234").

Definition ada : TeacherBody :=
  mkTeacherBody (Some "Ada") (Some "20") (Some "8").

(** Set up the PIN, log in, create a teacher (whose id is "t1"). *)
Definition setup : list (Env * Request) :=
  [ (env jan1 "s1", PostSetupPin pinBody);
    (env jan1 "u0", PostValidatePin pinBody);
    (env jan1 "t1", PostTeachers ada) ].

(** Ada checks in at 09:00 on 2024-01-01 ... *)
Definition atNine : list (Env * Request) :=
  setup ++ [ (env (jan1 + 9 * hour) "e1", PostCheckin "t1") ].

Definition adaAtNine : Teacher.t :=
  Teacher.mk "t1" "Ada" "20" "8" (Some true) (Some (jan1 + 9 * hour)).

Definition entryAtNine : TimeEntry.t :=
  TimeEntry.mk "e1" "t1" "2024-01-01" (jan1 + 9 * hour) None None None None.

(** ... and out at 19:00. *)
Definition atSeven : Env := env (jan1 + 19 * hour) "u1".

Definition tenHours : list (Env * Request) :=
  atNine ++ [ (atSeven, PostCheckout "t1") ].

(** Ada checks in at 23:00 on 2024-01-01 ... *)
Definition lateEvening : list (Env * Request) :=
  setup ++ [ (env (jan1 + 23 * hour) "e1", PostCheckin "t1") ].

Definition adaLate : Teacher.t :=
  Teacher.mk "t1" "Ada" "20" "8" (Some true) (Some (jan1 + 23 * hour)).

Definition entryLate : TimeEntry.t :=
  TimeEntry.mk "e1" "t1" "2024-01-01" (jan1 + 23 * hour) None None None None.

(** ... out at 01:00 on 2024-01-02, and in again at 02:00. *)
Definition atOne : Env := env (jan1 + 25 * hour) "u1".

Definition pastMidnight : list (Env * Request) :=
  lateEvening ++
  [ (atOne, PostCheckout "t1");
    (env (jan1 + 26 * hour) "e2", PostCheckin "t1") ].

(** An admin edit that carries only [isCheckedIn: true]. *)
Definition markCheckedIn : PartialTeacher.t :=
  {| PartialTeacher.id := None;
     PartialTeacher.name := None;
     PartialTeacher.hourlyRate := None;
     PartialTeacher.maxBillableHours := None;
     PartialTeacher.isCheckedIn := Some (Some true);
     PartialTeacher.currentCheckInTime := None |}.

Definition patched : list (Env * Request) :=
  setup ++ [ (env jan1 "u1", PatchTeacher "t1" markCheckedIn) ].

(** One completed session on 2024-01-01 and one on 2024-02-01. *)
Definition twoMonths : list (Env * Request) :=
  tenHours ++
  [ (env (jan1 + 31 * day + 9 * hour) "e2", PostCheckin "t1");
    (env (jan1 + 31 * day + 12 * hour) "u2", PostCheckout "t1") ].

(** The filter the dashboard sends for January 2024. *)
Definition january2024 : ExportQuery := mkExportQuery (Some "1") (Some "2024").

(** Ada is deleted after her ten-hour session. *)
Definition deleted : list (Env * Request) :=
  tenHours ++ [ (env (jan1 + 20 * hour) "u2", DeleteTeacher "t1") ].

(** The PIN is set up and the caller logged in; no teacher yet. *)
Definition loggedIn : list (Env * Request) :=
  [ (env jan1 "s1", PostSetupPin pinBody);
    (env jan1 "u0", PostValidatePin pinBody) ].

(** Ada as she is created. *)
Definition adaNew : Teacher.t :=
  Teacher.mk "t1" "Ada" "20" "8" (Some false) None.

(** The instant of Ada's check-in at 09:00. *)
Definition atNineEnv : Env := env (jan1 + 9 * hour) "e1".

(** Ada's entry of 2024-01-01, completed. *)
Definition entryDone : TimeEntry.t :=
  TimeEntry.mk "e1" "t1" "2024-01-01" (jan1 + 9 * hour)
    (Some (jan1 + 19 * hour)) (Some "10") (Some "8") (Some "160").

End Example.

(** * Properties *)

(** ** Lists and maps *)

Lemma find_none_of {A : Type} (f : A -> bool) (l : list A) :
  (forall x, In x l -> f x = false) -> find f l = None.
Proof.
  induction l as [|a l IH]; intros Hall; simpl.
  - reflexivity.
  - rewrite (Hall a (or_introl eq_refl)). apply IH.
    intros x Hx. apply Hall. now right.
Qed.

Lemma existsb_eqb_In (k : string) (ks : list string) :
  existsb (String.eqb k) ks = true <-> In k ks.
Proof.
  rewrite existsb_exists. split.
  - intros [x [Hx Heq]]. apply String.eqb_eq in Heq. now subst.
  - intros Hin. exists k. split; [assumption | apply String.eqb_refl].
Qed.

Lemma distinct_NoDup (ks : list string) : distinct ks = true <-> NoDup ks.
Proof.
  induction ks as [|k ks IH]; simpl.
  - split; [constructor | reflexivity].
  - rewrite andb_true_iff, negb_true_iff, IH. split.
    + intros [Hk Hnd]. constructor; [|assumption].
      intros Hin. apply existsb_eqb_In in Hin. congruence.
    + intros Hnd. inversion Hnd as [|? ? Hk Hnd']; subst. split; [|assumption].
      destruct (existsb (String.eqb k) ks) eqn:E; [|reflexivity].
      apply existsb_eqb_In in E. contradiction.
Qed.

Section JsMapFacts.
Context {V : Type}.
Implicit Types (m : JsMap.t V) (k : string) (v : V).

Lemma get_set_same k v m : JsMap.get k (JsMap.set k v m) = Some v.
Proof.
  induction m as [|[k' v'] m IH]; simpl.
  - now rewrite String.eqb_refl.
  - destruct (String.eqb k k') eqn:E; simpl; rewrite ?String.eqb_refl, ?E;
      [reflexivity | exact IH].
Qed.

Lemma get_set_other k k' v m :
  k <> k' -> JsMap.get k' (JsMap.set k v m) = JsMap.get k' m.
Proof.
  intros Hne. induction m as [|[k0 v0] m IH]; simpl.
  - destruct (String.eqb k' k) eqn:E; [|reflexivity].
    apply String.eqb_eq in E. congruence.
  - destruct (String.eqb k k0) eqn:E; simpl.
    + apply String.eqb_eq in E. subst k0.
      destruct (String.eqb k' k) eqn:E'; [|reflexivity].
      apply String.eqb_eq in E'. congruence.
    + now rewrite IH.
Qed.

Lemma get_delete_other k k' m :
  k <> k' -> JsMap.get k' (JsMap.delete k m) = JsMap.get k' m.
Proof.
  intros Hne. induction m as [|[k0 v0] m IH]; simpl; [reflexivity|].
  destruct (String.eqb k k0) eqn:E; simpl.
  - apply String.eqb_eq in E. subst k0.
    destruct (String.eqb k' k) eqn:E'; [|reflexivity].
    apply String.eqb_eq in E'. congruence.
  - now rewrite IH.
Qed.

Lemma get_None_keys k m : JsMap.get k m = None <-> ~ In k (JsMap.keys m).
Proof.
  induction m as [|[k0 v0] m IH]; simpl.
  - tauto.
  - destruct (String.eqb k k0) eqn:E.
    + apply String.eqb_eq in E. subst. split; [discriminate | tauto].
    + apply String.eqb_neq in E. rewrite IH. split.
      * intros Hn [Heq | Hin]; [congruence | tauto].
      * tauto.
Qed.

Lemma get_delete_same k m :
  NoDup (JsMap.keys m) -> JsMap.get k (JsMap.delete k m) = None.
Proof.
  induction m as [|[k0 v0] m IH]; simpl; intros Hnd; [reflexivity|].
  inversion Hnd as [|? ? Hk Hnd']; subst.
  destruct (String.eqb k k0) eqn:E; simpl.
  - apply String.eqb_eq in E. subst k0. now apply get_None_keys.
  - rewrite E. now apply IH.
Qed.

Lemma get_In k v m : JsMap.get k m = Some v -> In (k, v) m.
Proof.
  induction m as [|[k0 v0] m IH]; simpl; [discriminate|].
  destruct (String.eqb k k0) eqn:E.
  - apply String.eqb_eq in E. intros [= ->]. left. now subst.
  - intros Hg. right. now apply IH.
Qed.

Lemma In_get k v m : NoDup (JsMap.keys m) -> In (k, v) m -> JsMap.get k m = Some v.
Proof.
  induction m as [|[k0 v0] m IH]; simpl; intros Hnd Hin; [contradiction|].
  inversion Hnd as [|? ? Hk Hnd']; subst.
  destruct Hin as [[= -> ->] | Hin].
  - now rewrite String.eqb_refl.
  - destruct (String.eqb k k0) eqn:E.
    + apply String.eqb_eq in E. subst k0. exfalso. apply Hk.
      apply in_map_iff. now exists (k, v).
    + now apply IH.
Qed.

Lemma In_values v m : In v (JsMap.values m) <-> exists k, In (k, v) m.
Proof.
  unfold JsMap.values. rewrite in_map_iff. split.
  - intros [[k v'] [Heq Hin]]. simpl in Heq. subst. now exists k.
  - intros [k Hin]. now exists (k, v).
Qed.

Lemma In_set k0 v0 k v m :
  In (k0, v0) (JsMap.set k v m) -> (k0 = k /\ v0 = v) \/ In (k0, v0) m.
Proof.
  induction m as [|[k1 v1] m IH]; simpl.
  - intros [[= <- <-] | []]. now left.
  - destruct (String.eqb k k1) eqn:E; simpl.
    + intros [[= <- <-] | Hin]; [now left | right; now right].
    + intros [Heq | Hin]; [right; now left|].
      destruct (IH Hin) as [Hl | Hr]; [now left | right; now right].
Qed.

Lemma In_delete k0 v0 k m : In (k0, v0) (JsMap.delete k m) -> In (k0, v0) m.
Proof.
  induction m as [|[k1 v1] m IH]; simpl; [tauto|].
  destruct (String.eqb k k1); simpl; [tauto|].
  intros [Heq | Hin]; [now left | right; now apply IH].
Qed.

Lemma keys_set k v m :
  JsMap.keys (JsMap.set k v m) =
  if JsMap.has k m then JsMap.keys m else (JsMap.keys m ++ [k])%list.
Proof.
  unfold JsMap.has.
  induction m as [|[k1 v1] m IH]; simpl; [reflexivity|].
  destruct (String.eqb k k1) eqn:E; simpl.
  - apply String.eqb_eq in E. now subst.
  - rewrite IH. now destruct (JsMap.get k m).
Qed.

Lemma NoDup_keys_set k v m :
  NoDup (JsMap.keys m) -> NoDup (JsMap.keys (JsMap.set k v m)).
Proof.
  intros Hnd. rewrite keys_set. unfold JsMap.has.
  destruct (JsMap.get k m) eqn:E; [assumption|].
  apply get_None_keys in E.
  apply NoDup_rev in Hnd. rewrite <- (rev_involutive (_ ++ _)%list).
  apply NoDup_rev. rewrite rev_app_distr. simpl. constructor; [|assumption].
  now rewrite <- in_rev.
Qed.

Lemma NoDup_keys_delete k m :
  NoDup (JsMap.keys m) -> NoDup (JsMap.keys (JsMap.delete k m)).
Proof.
  induction m as [|[k1 v1] m IH]; simpl; intros Hnd; [constructor|].
  inversion Hnd as [|? ? Hk Hnd']; subst.
  destruct (String.eqb k k1); simpl; [assumption|].
  constructor; [|now apply IH].
  intros Hin. apply Hk. apply in_map_iff in Hin.
  destruct Hin as [[k2 v2] [Heq Hin]]. simpl in Heq. subst k2.
  apply in_map_iff. exists (k1, v2). split; [reflexivity|].
  now apply In_delete in Hin.
Qed.

End JsMapFacts.

(** ** The handlers *)

Ltac simp_state :=
  cbn [fst snd Routes.storage Routes.session_isAdmin MemStorage.teachers
       MemStorage.timeEntries MemStorage.appSettings
       truthy_bool truthy_opt negb andb orb] in *.

Ltac step_state :=
  unfold MemStorage.getTeacher, MemStorage.getTeachers,
    MemStorage.createTeacher, MemStorage.updateTeacher,
    MemStorage.deleteTeacher, MemStorage.getTimeEntries,
    MemStorage.getTimeEntriesByTeacher, MemStorage.getTimeEntriesByDate,
    MemStorage.updateTimeEntry, MemStorage.createTimeEntry,
    MemStorage.getAppSettings, MemStorage.createAppSettings,
    MemStorage.validatePin, MemStorage.resetAllData,
    Routes.await, Routes.setAdmin in *;
  unfold MemStorage.set_teachers, MemStorage.set_timeEntries,
    MemStorage.set_appSettings, bind, ret, gets, modify in *;
  simp_state.

(** Case analysis on a scrutinee that contains no further [match]. *)
Ltac case_innermost :=
  match goal with
  | |- context [match ?x with _ => _ end] =>
      lazymatch x with
      | context [match _ with _ => _ end] => fail
      | _ => destruct x eqn:?; simp_state
      end
  end.

Section RouteFacts.
Context `{Runtime}.

(** C5. Check-in of a teacher who is already checked in is answered with
    status 400 ("Teacher already checked in") and the server (teachers,
    time entries, settings and the session) is left as it was. *)
Theorem checkin_conflict (env : Env) (id : string) (srv : Routes.Server)
  (teacher : Teacher.t) :
  JsMap.get id (MemStorage.teachers (Routes.storage srv)) = Some teacher ->
  Teacher.isCheckedIn teacher = Some true ->
  Routes.checkin env id srv = (fail 400 "Teacher already checked in", srv).
Proof.
  intros Hget Hin. destruct srv as [this isAdmin].
  unfold Routes.checkin. step_state. rewrite Hget, Hin. reflexivity.
Qed.

(** C6. Check-out of a teacher whose isCheckedIn is not true, or whose
    currentCheckInTime is null, is answered with status 400 ("Teacher not
    checked in") and the server is left as it was. *)
Theorem checkout_conflict (env : Env) (id : string) (srv : Routes.Server)
  (teacher : Teacher.t) :
  JsMap.get id (MemStorage.teachers (Routes.storage srv)) = Some teacher ->
  Teacher.isCheckedIn teacher <> Some true
  \/ Teacher.currentCheckInTime teacher = None ->
  Routes.checkout env id srv = (fail 400 "Teacher not checked in", srv).
Proof.
  intros Hget Hnot. destruct srv as [this isAdmin].
  unfold Routes.checkout. step_state. rewrite Hget.
  destruct (Teacher.isCheckedIn teacher) as [[|]|] eqn:E; try reflexivity.
  destruct Hnot as [Hn | Hn]; [congruence|]. cbn. now rewrite Hn.
Qed.

Lemma spread_checkedOut (teacher : Teacher.t) :
  spreadTeacher teacher
    {| PartialTeacher.id := None;
       PartialTeacher.name := None;
       PartialTeacher.hourlyRate := None;
       PartialTeacher.maxBillableHours := None;
       PartialTeacher.isCheckedIn := Some (Some false);
       PartialTeacher.currentCheckInTime := Some None |}
  = checkedOut teacher.
Proof. reflexivity. Qed.

(** C7. When a checked-in teacher has no entry dated today that is still
    open, the check-out is answered with status 200 and the teacher with
    isCheckedIn = false and currentCheckInTime = null, that teacher is what
    the store then holds under the id, and the time entries (like the
    settings and the session) are left as they were. *)
Theorem checkout_without_open_entry (env : Env) (id : string)
  (srv : Routes.Server) (teacher : Teacher.t) (checkInTime : Date) :
  JsMap.get id (MemStorage.teachers (Routes.storage srv)) = Some teacher ->
  Teacher.isCheckedIn teacher = Some true ->
  Teacher.currentCheckInTime teacher = Some checkInTime ->
  (forall entry,
      In entry (JsMap.values (MemStorage.timeEntries (Routes.storage srv))) ->
      TimeEntry.teacherId entry = id ->
      TimeEntry.date entry = IsoDate.toISODate (now env) ->
      TimeEntry.checkOutTime entry <> None) ->
  let (response, srv') := Routes.checkout env id srv in
  response = json (OneTeacher (Some (checkedOut teacher)))
  /\ JsMap.get id (MemStorage.teachers (Routes.storage srv'))
     = Some (checkedOut teacher)
  /\ MemStorage.timeEntries (Routes.storage srv')
     = MemStorage.timeEntries (Routes.storage srv)
  /\ MemStorage.appSettings (Routes.storage srv')
     = MemStorage.appSettings (Routes.storage srv)
  /\ Routes.session_isAdmin srv' = Routes.session_isAdmin srv.
Proof.
  intros Hget Hin Hcur Hnone. destruct srv as [this isAdmin].
  unfold Routes.checkout. step_state. rewrite Hget, Hin. simp_state.
  rewrite Hcur. simp_state. rewrite Hget. simp_state. rewrite find_none_of.
  - simp_state. rewrite get_set_same. repeat split; reflexivity.
  - intros entry Hentry. apply filter_In in Hentry.
    destruct Hentry as [Hentry Hid]. apply String.eqb_eq in Hid.
    unfold Routes.isOpenOn.
    destruct (String.eqb (TimeEntry.date entry) (IsoDate.toISODate (now env)))
      eqn:E; [|reflexivity].
    apply String.eqb_eq in E. specialize (Hnone entry Hentry Hid E).
    destruct (TimeEntry.checkOutTime entry); [reflexivity | congruence].
Qed.

(** C8. Deleting a teacher touches the teachers only: every time entry,
    those of the deleted teacher included, stays in the store as it was,
    and so do the settings.  For an admin the teacher's key is removed
    (the answer is 200 when it existed and 404 otherwise) and every other
    teacher is kept; without an admin session nothing changes at all. *)
Theorem delete_teacher_keeps_entries (id : string) (srv : Routes.Server) :
  let (response, srv') := Routes.deleteTeacherRoute id srv in
  MemStorage.timeEntries (Routes.storage srv')
  = MemStorage.timeEntries (Routes.storage srv)
  /\ MemStorage.appSettings (Routes.storage srv')
     = MemStorage.appSettings (Routes.storage srv)
  /\ (forall id', id' <> id ->
        JsMap.get id' (MemStorage.teachers (Routes.storage srv'))
        = JsMap.get id' (MemStorage.teachers (Routes.storage srv)))
  /\ (if Routes.session_isAdmin srv
      then MemStorage.teachers (Routes.storage srv')
           = JsMap.delete id (MemStorage.teachers (Routes.storage srv))
           /\ status response
              = (if JsMap.has id (MemStorage.teachers (Routes.storage srv))
                 then 200 else 404)
      else srv' = srv /\ status response = 403).
Proof.
  destruct srv as [this isAdmin].
  unfold Routes.deleteTeacherRoute. step_state.
  destruct isAdmin; cbn.
  - destruct (JsMap.has id (MemStorage.teachers this)); cbn;
      repeat split; try reflexivity;
      intros id' Hne; apply get_delete_other; congruence.
  - repeat split; reflexivity.
Qed.

(** C9. Once settings exist, a PIN setup request is answered with status
    400 ("PIN already set up", or "Invalid PIN format" for a malformed
    body) and the server, the stored pinHash included, is left as it was;
    so a PIN of four to six characters whose hash the settings hold still
    validates afterwards, given that bcrypt.compare accepts a PIN against
    its own hash. *)
Theorem second_setup_rejected (env : Env) (b : PinBody)
  (srv : Routes.Server) (settings : AppSettings.t) :
  (forall pin salt, bcrypt_compare pin (bcrypt_hash pin salt) = true) ->
  MemStorage.appSettings (Routes.storage srv) = Some settings ->
  let (response, srv') := Routes.setupPin env b srv in
  status response = 400
  /\ (response = fail 400 "PIN already set up"
      \/ response = fail 400 "Invalid PIN format")
  /\ srv' = srv
  /\ forall firstPin firstSalt,
       pinSchema_parse (mkPinBody (Some firstPin)) = Some firstPin ->
       AppSettings.pinHash settings = bcrypt_hash firstPin firstSalt ->
       fst (Routes.validatePinRoute (mkPinBody (Some firstPin)) srv')
       = json (Message "PIN validated successfully").
Proof.
  intros Hsound Hset. destruct srv as [this isAdmin].
  assert (Hvalid : forall firstPin firstSalt,
      pinSchema_parse (mkPinBody (Some firstPin)) = Some firstPin ->
      AppSettings.pinHash settings = bcrypt_hash firstPin firstSalt ->
      fst (Routes.validatePinRoute (mkPinBody (Some firstPin))
             (Routes.mkServer this isAdmin))
      = json (Message "PIN validated successfully")).
  { intros firstPin firstSalt Hparse Hhash.
    unfold Routes.validatePinRoute. rewrite Hparse. step_state.
    cbn in Hset. rewrite Hset. cbn. rewrite Hhash, Hsound. reflexivity. }
  unfold Routes.setupPin.
  destruct (pinSchema_parse b) as [pin|]; step_state.
  - cbn in Hset. rewrite Hset. cbn. repeat split; auto.
  - cbn. repeat split; auto.
Qed.

Lemma insert_In {A : Type} (cmp : A -> A -> option Z) (x y : A) (l : list A) :
  In y (JsArray.insert cmp x l) <-> y = x \/ In y l.
Proof.
  induction l as [|a l IH]; simpl.
  - intuition.
  - destruct (JsArray.goesAfter cmp x a); simpl; [rewrite IH|]; intuition.
Qed.

Lemma sort_In {A : Type} (cmp : A -> A -> option Z) (y : A) (l : list A) :
  In y (JsArray.sort cmp l) <-> In y l.
Proof.
  induction l as [|a l IH]; simpl; [tauto|].
  rewrite insert_In, IH. intuition.
Qed.

Lemma exportRow_orphan (teachers : list Teacher.t) (entry : TimeEntry.t) :
  (forall t, In t teachers -> Teacher.id t <> TimeEntry.teacherId entry) ->
  Routes.exportRow teachers entry = orphanRow entry.
Proof.
  intros Hnone. unfold Routes.exportRow. rewrite find_none_of; [reflexivity|].
  intros t Ht. apply String.eqb_neq. now apply Hnone.
Qed.

(** C10. For an admin, every completed time entry whose teacherId is the
    id of no teacher in the store has its row in the export, with
    teacherName "Unknown", hourlyRate "0" and the entry's own date, times,
    hours and pay; the export answers 200 and changes nothing. *)
Theorem export_keeps_orphans (q : ExportQuery) (srv : Routes.Server)
  (entry : TimeEntry.t) :
  Routes.session_isAdmin srv = true ->
  In entry (JsMap.values (MemStorage.timeEntries (Routes.storage srv))) ->
  TimeEntry.checkOutTime entry <> None ->
  (forall t, In t (JsMap.values (MemStorage.teachers (Routes.storage srv))) ->
             Teacher.id t <> TimeEntry.teacherId entry) ->
  exists rows,
    Routes.exportTimesheet q srv = (json (ExportData rows), srv)
    /\ In (orphanRow entry) rows.
Proof.
  intros Hadmin Hin Hout Hnone. destruct srv as [this isAdmin].
  cbn in Hadmin. subst isAdmin.
  unfold Routes.exportTimesheet. step_state. cbn.
  eexists. split; [reflexivity|].
  apply sort_In. rewrite <- (exportRow_orphan _ _ Hnone).
  apply in_map. apply filter_In. split; [assumption|].
  destruct (TimeEntry.checkOutTime entry); [reflexivity | congruence].
Qed.

End RouteFacts.

(** ** Well-formed stores *)

Lemma keyedById_spec (m : JsMap.t TimeEntry.t) :
  keyedById m = true <-> (forall k e, In (k, e) m -> TimeEntry.id e = k).
Proof.
  unfold keyedById. rewrite forallb_forall. split.
  - intros Hall k e Hin. apply String.eqb_eq. exact (Hall (k, e) Hin).
  - intros Hall [k e] Hin. apply String.eqb_eq. simpl. now apply Hall.
Qed.

Lemma wellFormed_spec (this : MemStorage.t) :
  wellFormed this = true <->
  NoDup (JsMap.keys (MemStorage.teachers this))
  /\ NoDup (JsMap.keys (MemStorage.timeEntries this))
  /\ (forall k e, In (k, e) (MemStorage.timeEntries this) ->
                  TimeEntry.id e = k).
Proof.
  unfold wellFormed.
  rewrite !andb_true_iff, !distinct_NoDup, keyedById_spec. tauto.
Qed.

Lemma wellFormed_new : wellFormed MemStorage.new = true.
Proof. reflexivity. Qed.

Section WellFormed.
Variables (ts : JsMap.t Teacher.t) (es : JsMap.t TimeEntry.t)
  (a : option AppSettings.t).

Lemma wellFormed_set_teacher (k : string) (v : Teacher.t) :
  wellFormed (MemStorage.mk ts es a) = true ->
  wellFormed (MemStorage.mk (JsMap.set k v ts) es a) = true.
Proof.
  rewrite !wellFormed_spec.
  cbn [MemStorage.teachers MemStorage.timeEntries MemStorage.appSettings].
  intros (Ht & He & Hk). repeat split; auto using NoDup_keys_set.
Qed.

Lemma wellFormed_delete_teacher (k : string) :
  wellFormed (MemStorage.mk ts es a) = true ->
  wellFormed (MemStorage.mk (JsMap.delete k ts) es a) = true.
Proof.
  rewrite !wellFormed_spec.
  cbn [MemStorage.teachers MemStorage.timeEntries MemStorage.appSettings].
  intros (Ht & He & Hk). repeat split; auto using NoDup_keys_delete.
Qed.

Lemma wellFormed_set_entry (k : string) (e : TimeEntry.t) :
  TimeEntry.id e = k ->
  wellFormed (MemStorage.mk ts es a) = true ->
  wellFormed (MemStorage.mk ts (JsMap.set k e es) a) = true.
Proof.
  rewrite !wellFormed_spec.
  cbn [MemStorage.teachers MemStorage.timeEntries MemStorage.appSettings].
  intros Hid (Ht & He & Hk). repeat split; auto using NoDup_keys_set.
  intros k0 e0 Hin. apply In_set in Hin.
  destruct Hin as [[-> ->] | Hin]; auto.
Qed.

Lemma wellFormed_settings (a' : option AppSettings.t) :
  wellFormed (MemStorage.mk ts es a) = true ->
  wellFormed (MemStorage.mk ts es a') = true.
Proof.
  rewrite !wellFormed_spec.
  cbn [MemStorage.teachers MemStorage.timeEntries MemStorage.appSettings].
  tauto.
Qed.

End WellFormed.

Lemma wellFormed_get_id (this : MemStorage.t) (k : string) (e : TimeEntry.t) :
  wellFormed this = true ->
  JsMap.get k (MemStorage.timeEntries this) = Some e ->
  TimeEntry.id e = k.
Proof.
  rewrite wellFormed_spec. intros (_ & _ & Hk) Hget.
  apply Hk. now apply get_In.
Qed.

Lemma wellFormed_value_get (this : MemStorage.t) (e : TimeEntry.t) :
  wellFormed this = true ->
  In e (JsMap.values (MemStorage.timeEntries this)) ->
  JsMap.get (TimeEntry.id e) (MemStorage.timeEntries this) = Some e.
Proof.
  rewrite wellFormed_spec. intros (_ & Hnd & Hk) Hin.
  apply In_values in Hin. destruct Hin as [k Hin].
  rewrite (Hk k e Hin). now apply In_get.
Qed.

Create HintDb store.

#[local] Hint Resolve wellFormed_new wellFormed_set_teacher
  wellFormed_delete_teacher wellFormed_set_entry wellFormed_settings
  : store.

Section Reachability.
Context `{Runtime}.

(** Every request keeps the store well formed. *)
Lemma handle_wellFormed (env : Env) (req : Request) (this : MemStorage.t)
  (isAdmin : bool) :
  wellFormed this = true ->
  wellFormed
    (Routes.storage
       (snd (Routes.handle env req (Routes.mkServer this isAdmin)))) = true.
Proof.
  intros Hwf.
  assert (Hid : forall k e,
             JsMap.get k (MemStorage.timeEntries this) = Some e ->
             TimeEntry.id e = k)
    by (intros k e; apply wellFormed_get_id; exact Hwf).
  destruct this as [ts es a].
  destruct req; cbn [Routes.handle];
    unfold Routes.getPinSetup, Routes.setupPin, Routes.validatePinRoute,
      Routes.checkAdmin, Routes.logout, Routes.reset, Routes.listTeachers,
      Routes.createTeacherRoute, Routes.patchTeacher,
      Routes.deleteTeacherRoute, Routes.checkin, Routes.checkout,
      Routes.listTimeEntries, Routes.exportTimesheet;
    step_state;
    repeat case_innermost;
    auto 6 with store.
  (* a check-out finalizes an entry *)
  all: apply wellFormed_set_entry; [|auto with store]; cbn; now apply Hid.
Qed.

(** X21. In every store the server can be brought to, by any requests of
    any callers, the keys of the teacher map and of the time-entry map are
    distinct and every time entry is stored under its own id. *)
Lemma reachable_wellFormed (this : MemStorage.t) :
  reachable this -> wellFormed this = true.
Proof.
  induction 1 as [|this isAdmin env req _ IH].
  - exact wellFormed_new.
  - now apply handle_wellFormed.
Qed.

Lemma run_reachable (reqs : list (Env * Request)) (srv : Routes.Server) :
  reachable (Routes.storage srv) ->
  reachable (Routes.storage (Routes.run reqs srv)).
Proof.
  revert srv. induction reqs as [|[env req] reqs IH]; intros srv Hr; simpl.
  - assumption.
  - apply IH. destruct srv as [this isAdmin].
    now apply reachable_step.
Qed.

End Reachability.

(** ** Check-out: what is recorded *)

Section CheckoutFacts.
Context `{Runtime}.

(** C1. A check-out of a checked-in teacher that finds the teacher's open
    entry of today answers 200 and records on that entry, as strings,
    hoursWorked = (now - currentCheckInTime) / 3600000,
    billableHours = Math.min(hoursWorked, parseFloat(maxBillableHours)) and
    pay = billableHours * parseFloat(hourlyRate), with checkOutTime = now;
    the entry's id, teacher, date and check-in time are kept.  This holds
    for every elapsed time, in every well-formed store. *)
Theorem checkout_records_pay (env : Env) (id : string) (srv : Routes.Server)
  (teacher : Teacher.t) (checkInTime : Date) (todayEntry : TimeEntry.t) :
  wellFormed (Routes.storage srv) = true ->
  JsMap.get id (MemStorage.teachers (Routes.storage srv)) = Some teacher ->
  Teacher.isCheckedIn teacher = Some true ->
  Teacher.currentCheckInTime teacher = Some checkInTime ->
  find (Routes.isOpenOn (IsoDate.toISODate (now env)))
       (filter (fun entry => String.eqb (TimeEntry.teacherId entry) id)
          (JsMap.values (MemStorage.timeEntries (Routes.storage srv))))
  = Some todayEntry ->
  let hoursWorked :=
    num_div (num_sub (getTime (now env)) (getTime checkInTime))
            (num_of_Z 3600000) in
  let billableHours :=
    Math_min hoursWorked (parseFloat (Teacher.maxBillableHours teacher)) in
  let pay :=
    num_mul billableHours (parseFloat (Teacher.hourlyRate teacher)) in
  let (response, srv') := Routes.checkout env id srv in
  response = json (OneTeacher (Some (checkedOut teacher)))
  /\ JsMap.get (TimeEntry.id todayEntry)
       (MemStorage.timeEntries (Routes.storage srv'))
     = Some (finalized todayEntry (now env) (num_toString hoursWorked)
               (num_toString billableHours) (num_toString pay)).
Proof.
  intros Hwf Hget Hin Hcur Hfind. destruct srv as [this isAdmin].
  simp_state.
  assert (Hentry : JsMap.get (TimeEntry.id todayEntry)
                     (MemStorage.timeEntries this) = Some todayEntry).
  { apply wellFormed_value_get; [exact Hwf|].
    apply find_some in Hfind. destruct Hfind as [Hfind _].
    apply filter_In in Hfind. tauto. }
  unfold Routes.checkout. step_state. rewrite Hget, Hin. simp_state.
  rewrite Hcur. simp_state. rewrite Hget. simp_state.
  rewrite Hfind. simp_state. rewrite Hentry. simp_state.
  rewrite get_set_same. split; reflexivity.
Qed.

(** A check-out changes at most the entry it finalizes. *)
Lemma checkout_other_entries (env : Env) (id : string) (srv : Routes.Server)
  (k : string) :
  (forall entry,
     find (Routes.isOpenOn (IsoDate.toISODate (now env)))
          (filter (fun entry => String.eqb (TimeEntry.teacherId entry) id)
             (JsMap.values (MemStorage.timeEntries (Routes.storage srv))))
     = Some entry -> TimeEntry.id entry <> k) ->
  JsMap.get k
    (MemStorage.timeEntries (Routes.storage (snd (Routes.checkout env id srv))))
  = JsMap.get k (MemStorage.timeEntries (Routes.storage srv)).
Proof.
  intros Hother. destruct srv as [this isAdmin].
  unfold Routes.checkout. step_state.
  repeat case_innermost; try reflexivity.
  all: apply get_set_other; apply Hother; congruence.
Qed.

End CheckoutFacts.

(** ** The status fields of a teacher *)

Lemma forallb_values_set {V : Type} (P : V -> bool) (k : string) (v : V)
  (m : JsMap.t V) :
  P v = true ->
  forallb P (JsMap.values m) = true ->
  forallb P (JsMap.values (JsMap.set k v m)) = true.
Proof.
  intros Hv. unfold JsMap.values.
  induction m as [|[k' v'] m IH]; simpl.
  - now rewrite Hv.
  - destruct (String.eqb k k'); simpl; rewrite !andb_true_iff.
    + intros [_ Hm]. now split.
    + intros [Hv' Hm]. split; [assumption | now apply IH].
Qed.

Lemma forallb_values_delete {V : Type} (P : V -> bool) (k : string)
  (m : JsMap.t V) :
  forallb P (JsMap.values m) = true ->
  forallb P (JsMap.values (JsMap.delete k m)) = true.
Proof.
  unfold JsMap.values.
  induction m as [|[k' v'] m IH]; simpl; [reflexivity|].
  destruct (String.eqb k k'); simpl; rewrite !andb_true_iff.
  - tauto.
  - intros [Hv' Hm]. split; [assumption | now apply IH].
Qed.

Lemma forallb_values_get {V : Type} (P : V -> bool) (k : string) (v : V)
  (m : JsMap.t V) :
  forallb P (JsMap.values m) = true -> JsMap.get k m = Some v -> P v = true.
Proof.
  intros Hall Hget. rewrite forallb_forall in Hall. apply Hall.
  apply In_values. exists k. now apply get_In.
Qed.

Lemma statusConsistent_spread (teacher : Teacher.t)
  (updates : PartialTeacher.t) :
  PartialTeacher.isCheckedIn updates = None ->
  PartialTeacher.currentCheckInTime updates = None ->
  statusConsistent (spreadTeacher teacher updates) = statusConsistent teacher.
Proof.
  intros Hi Hc. unfold statusConsistent, spreadTeacher. cbn.
  now rewrite Hi, Hc.
Qed.

Section StatusFacts.
Context `{Runtime}.

(** Creation, check-in, check-out, deletion, reset and every admin edit
    that carries neither status field keep isCheckedIn == true equivalent
    to currentCheckInTime != null for every teacher. *)
Lemma handle_keeps_status (env : Env) (req : Request) (this : MemStorage.t)
  (isAdmin : bool) :
  touchesStatus req = false ->
  allConsistent this = true ->
  allConsistent
    (Routes.storage
       (snd (Routes.handle env req (Routes.mkServer this isAdmin)))) = true.
Proof.
  unfold allConsistent. intros Htouch Hall.
  assert (Hget : forall k t,
             JsMap.get k (MemStorage.teachers this) = Some t ->
             statusConsistent t = true)
    by (intros k t; now apply forallb_values_get).
  destruct this as [ts es a].
  destruct req; cbn [Routes.handle];
    unfold Routes.getPinSetup, Routes.setupPin, Routes.validatePinRoute,
      Routes.checkAdmin, Routes.logout, Routes.reset, Routes.listTeachers,
      Routes.createTeacherRoute, Routes.patchTeacher,
      Routes.deleteTeacherRoute, Routes.checkin, Routes.checkout,
      Routes.listTimeEntries, Routes.exportTimesheet;
    step_state;
    repeat case_innermost;
    auto using forallb_values_set, forallb_values_delete.
  (* an admin edit without the status fields *)
  all: apply forallb_values_set; [|assumption].
  all: cbn in Htouch; apply orb_false_elim in Htouch;
    destruct Htouch as [Hi Hc].
  all: rewrite statusConsistent_spread;
    [ eapply Hget; eassumption
    | now destruct (PartialTeacher.isCheckedIn updates)
    | now destruct (PartialTeacher.currentCheckInTime updates) ].
Qed.

(** X22. Along a run of requests none of which is an admin edit carrying
    isCheckedIn or currentCheckInTime, every teacher keeps isCheckedIn ==
    true equivalent to currentCheckInTime != null: creation, check-in,
    check-out, deletion, reset and the other edits preserve it. *)
Lemma run_keeps_status (reqs : list (Env * Request)) (srv : Routes.Server) :
  Forall (fun request => touchesStatus (snd request) = false) reqs ->
  allConsistent (Routes.storage srv) = true ->
  allConsistent (Routes.storage (Routes.run reqs srv)) = true.
Proof.
  intros Hreqs. revert srv.
  induction Hreqs as [|[env req] reqs Hreq _ IH]; intros srv Hall; simpl.
  - exact Hall.
  - apply IH. destruct srv as [this isAdmin].
    now apply handle_keeps_status.
Qed.

End StatusFacts.

(** ** The timesheet export *)

Section ExportFacts.
Context `{Runtime}.

(** The month and year of the query have no effect on the export. *)
Lemma export_ignores_query (q q' : ExportQuery) (srv : Routes.Server) :
  Routes.exportTimesheet q srv = Routes.exportTimesheet q' srv.
Proof. reflexivity. Qed.

(** Every row of the export comes from a completed entry. *)
Lemma export_only_completed (q : ExportQuery) (srv : Routes.Server)
  (rows : list ExportRow.t) (row : ExportRow.t) :
  body (fst (Routes.exportTimesheet q srv)) = ExportData rows ->
  In row rows ->
  exists entry,
    In entry (JsMap.values (MemStorage.timeEntries (Routes.storage srv)))
    /\ TimeEntry.checkOutTime entry <> None
    /\ ExportRow.date row = TimeEntry.date entry
    /\ ExportRow.checkOutTime row = TimeEntry.checkOutTime entry.
Proof.
  destruct srv as [this isAdmin]. unfold Routes.exportTimesheet. step_state.
  destruct isAdmin; cbn; [|discriminate].
  intros [= <-] Hin. apply sort_In in Hin. apply in_map_iff in Hin.
  destruct Hin as [entry [<- Hin]]. apply filter_In in Hin.
  destruct Hin as [Hin Hout]. exists entry. repeat split; try assumption.
  destruct (TimeEntry.checkOutTime entry); [discriminate | discriminate].
Qed.

Lemma insert_sorted (x : ExportRow.t) (l : list ExportRow.t) :
  (forall r, In r (x :: l) -> Date_parse (ExportRow.date r) <> None) ->
  dateDescending l ->
  dateDescending (JsArray.insert Routes.byDateDesc x l).
Proof.
  unfold dateDescending. intros Hparse Hl.
  induction Hl as [|y l Hl IH Hy]; simpl.
  - repeat constructor.
  - assert (Hx : Date_parse (ExportRow.date x) <> None)
      by (apply Hparse; now left).
    assert (Hpy : Date_parse (ExportRow.date y) <> None)
      by (apply Hparse; right; now left).
    unfold JsArray.goesAfter, Routes.byDateDesc.
    destruct (Date_parse (ExportRow.date x)) as [tx|] eqn:Ex; [|congruence].
    destruct (Date_parse (ExportRow.date y)) as [ty|] eqn:Ey; [|congruence].
    destruct (0 <? ty - tx) eqn:E.
    + apply Z.ltb_lt in E. constructor.
      * apply IH. intros r [<- | Hr]; apply Hparse; [now left | right; now right].
      * rewrite Forall_forall in *. intros r Hr. apply insert_In in Hr.
        destruct Hr as [-> | Hr]; [|now apply Hy].
        unfold notBefore. rewrite Ey, Ex. lia.
    + apply Z.ltb_ge in E. constructor; [now constructor|].
      constructor; [unfold notBefore; rewrite Ex, Ey; lia|].
      rewrite Forall_forall in *. intros r Hr. specialize (Hy r Hr).
      unfold notBefore in *. rewrite Ey in Hy. rewrite Ex.
      destruct (Date_parse (ExportRow.date r)); [lia | contradiction].
Qed.

Lemma sort_sorted (l : list ExportRow.t) :
  (forall r, In r l -> Date_parse (ExportRow.date r) <> None) ->
  dateDescending (JsArray.sort Routes.byDateDesc l).
Proof.
  induction l as [|x l IH]; intros Hparse; simpl.
  - constructor.
  - apply insert_sorted.
    + intros r [<- | Hr]; [apply Hparse; now left|].
      apply sort_In in Hr. apply Hparse. now right.
    + apply IH. intros r Hr. apply Hparse. now right.
Qed.

(** X20. When the dates of the completed entries parse, the rows of the
    export are in descending order of the time value of their date. *)
Lemma export_sorted (q : ExportQuery) (srv : Routes.Server)
  (rows : list ExportRow.t) :
  (forall entry,
     In entry (JsMap.values (MemStorage.timeEntries (Routes.storage srv))) ->
     TimeEntry.checkOutTime entry <> None ->
     Date_parse (TimeEntry.date entry) <> None) ->
  body (fst (Routes.exportTimesheet q srv)) = ExportData rows ->
  dateDescending rows.
Proof.
  destruct srv as [this isAdmin]. unfold Routes.exportTimesheet. step_state.
  intros Hparse. destruct isAdmin; cbn; [|discriminate].
  intros [= <-]. apply sort_sorted. intros r Hr. apply in_map_iff in Hr.
  destruct Hr as [entry [<- Hin]]. apply filter_In in Hin.
  destruct Hin as [Hin Hout]. cbn. apply Hparse; [assumption|].
  destruct (TimeEntry.checkOutTime entry); [discriminate | discriminate].
Qed.

End ExportFacts.

(** ** One open session per teacher *)

Lemma values_get {V : Type} (m : JsMap.t V) (v : V) :
  NoDup (JsMap.keys m) ->
  In v (JsMap.values m) <-> exists k, JsMap.get k m = Some v.
Proof.
  intros Hnd. rewrite In_values. split; intros [k Hk]; exists k.
  - now apply In_get.
  - now apply get_In.
Qed.

Lemma values_set {V : Type} (m : JsMap.t V) (k : string) (v v0 : V) :
  NoDup (JsMap.keys m) ->
  In v0 (JsMap.values (JsMap.set k v m)) <->
  v0 = v \/ exists k0, k0 <> k /\ JsMap.get k0 m = Some v0.
Proof.
  intros Hnd. rewrite values_get by now apply NoDup_keys_set. split.
  - intros [k0 Hk0]. destruct (string_dec k k0) as [<- | Hne].
    + rewrite get_set_same in Hk0. left. congruence.
    + rewrite get_set_other in Hk0 by assumption. right. exists k0.
      split; congruence.
  - intros [-> | [k0 [Hne Hk0]]].
    + exists k. apply get_set_same.
    + exists k0. rewrite get_set_other; congruence.
Qed.

Lemma truthy_bool_false (b : option bool) :
  truthy_bool b = false <-> b <> Some true.
Proof. destruct b as [[|]|]; simpl; split; congruence. Qed.

Section OneOpenSession.
Variables (ts : JsMap.t Teacher.t) (es : JsMap.t TimeEntry.t)
  (a : option AppSettings.t).
Hypothesis Hwf : wellFormed (MemStorage.mk ts es a) = true.
Hypothesis Hinv : oneOpenSession (MemStorage.mk ts es a).

Let Hnd_es : NoDup (JsMap.keys es).
Proof. apply wellFormed_spec in Hwf. tauto. Qed.

Lemma oneOpenSession_settings (a' : option AppSettings.t) :
  oneOpenSession (MemStorage.mk ts es a').
Proof. exact Hinv. Qed.

(** A teacher who is not checked in has no open entry. *)
Lemma no_open_entry (id : string) (teacher : Teacher.t) (e : TimeEntry.t) :
  JsMap.get id ts = Some teacher ->
  Teacher.isCheckedIn teacher <> Some true ->
  In e (JsMap.values es) -> isOpen e = true ->
  TimeEntry.teacherId e <> id.
Proof.
  intros Hget Hnot Hin Hopen Heq.
  destruct Hinv as (_ & Hown & _).
  destruct (Hown e Hin Hopen) as (t & c & Ht & Hc & _).
  simp_state. rewrite Heq, Hget in Ht. congruence.
Qed.

Lemma oneOpenSession_createTeacher (uuid : string) (teacher : Teacher.t) :
  JsMap.get uuid ts = None ->
  Teacher.isCheckedIn teacher <> Some true ->
  oneOpenSession (MemStorage.mk (JsMap.set uuid teacher ts) es a).
Proof.
  intros Hfresh Hnot. destruct Hinv as (Huniq & Hown & Hhas).
  simp_state. split; [exact Huniq | split]; simp_state.
  - intros e Hin Hopen.
    destruct (Hown e Hin Hopen) as (t & c & Ht & Hrest).
    exists t, c. split; [|exact Hrest].
    rewrite get_set_other; [exact Ht | congruence].
  - intros id t Hget Hchecked.
    destruct (string_dec uuid id) as [<- | Hne].
    + rewrite get_set_same in Hget. congruence.
    + rewrite get_set_other in Hget by assumption. eauto.
Qed.

Lemma oneOpenSession_checkin (id uuid : string) (teacher teacher' : Teacher.t)
  (e' : TimeEntry.t) (t0 : Date) :
  JsMap.get id ts = Some teacher ->
  Teacher.isCheckedIn teacher <> Some true ->
  JsMap.get uuid es = None ->
  Teacher.isCheckedIn teacher' = Some true ->
  Teacher.currentCheckInTime teacher' = Some t0 ->
  TimeEntry.teacherId e' = id ->
  TimeEntry.date e' = IsoDate.toISODate t0 ->
  isOpen e' = true ->
  oneOpenSession
    (MemStorage.mk (JsMap.set id teacher' ts) (JsMap.set uuid e' es) a).
Proof.
  intros Hget Hnot Hfresh Hin' Hcur' Hid' Hdate' Hopen'.
  pose proof Hinv as (Huniq & Hown & Hhas). simp_state.
  assert (Hold : forall e, In e (JsMap.values (JsMap.set uuid e' es)) ->
                           e = e' \/ In e (JsMap.values es)).
  { intros e He. apply values_set in He; [|exact Hnd_es].
    destruct He as [-> | [k0 [_ Hk0]]]; [now left | right].
    apply values_get; eauto. }
  assert (Hkeep : forall e, In e (JsMap.values es) ->
                            In e (JsMap.values (JsMap.set uuid e' es))).
  { intros e He. apply values_set; [exact Hnd_es|]. right.
    apply values_get in He; [|exact Hnd_es]. destruct He as [k0 Hk0].
    exists k0. split; [congruence | exact Hk0]. }
  split; [|split]; simp_state.
  - intros e1 e2 H1 H2 Ho1 Ho2 Hsame.
    destruct (Hold e1 H1) as [-> | H1']; destruct (Hold e2 H2) as [-> | H2'].
    + reflexivity.
    + exfalso. apply (no_open_entry id teacher e2); congruence.
    + exfalso. apply (no_open_entry id teacher e1); congruence.
    + now apply Huniq.
  - intros e He Hopen. destruct (Hold e He) as [-> | He'].
    + exists teacher', t0. rewrite Hid', get_set_same. auto.
    + destruct (Hown e He' Hopen) as (t & c & Ht & Hrest).
      exists t, c. split; [|exact Hrest].
      rewrite get_set_other; [exact Ht|].
      intros Heq. apply (no_open_entry id teacher e); congruence.
  - intros k t Hk Hchecked. destruct (string_dec id k) as [<- | Hne].
    + exists e'. split; [|now split].
      apply values_set; [exact Hnd_es | now left].
    + rewrite get_set_other in Hk by assumption.
      destruct (Hhas k t Hk Hchecked) as (e & He & Hrest).
      exists e. split; [now apply Hkeep | exact Hrest].
Qed.

Lemma oneOpenSession_checkout (id : string) (teacher teacher' : Teacher.t)
  (todayEntry fin : TimeEntry.t) :
  JsMap.get id ts = Some teacher ->
  Teacher.isCheckedIn teacher' <> Some true ->
  In todayEntry (JsMap.values es) ->
  TimeEntry.teacherId todayEntry = id ->
  isOpen todayEntry = true ->
  isOpen fin = false ->
  oneOpenSession
    (MemStorage.mk (JsMap.set id teacher' ts)
       (JsMap.set (TimeEntry.id todayEntry) fin es) a).
Proof.
  intros Hget Hnot Hin Hid Hopen Hclosed.
  pose proof Hinv as (Huniq & Hown & Hhas). simp_state.
  assert (Hold : forall e,
             In e (JsMap.values (JsMap.set (TimeEntry.id todayEntry) fin es)) ->
             isOpen e = true ->
             In e (JsMap.values es) /\ TimeEntry.teacherId e <> id).
  { intros e He Ho. apply values_set in He; [|exact Hnd_es].
    destruct He as [-> | [k0 [Hne Hk0]]]; [congruence|].
    assert (He : In e (JsMap.values es)) by (apply values_get; eauto).
    split; [exact He|]. intros Hsame.
    assert (e = todayEntry) by (apply Huniq; congruence). subst e.
    apply Hne. symmetry.
    exact (wellFormed_get_id _ _ _ Hwf Hk0). }
  split; [|split]; simp_state.
  - intros e1 e2 H1 H2 Ho1 Ho2 Hsame.
    apply Huniq; try assumption; now apply Hold.
  - intros e He Ho. destruct (Hold e He Ho) as [He' Hne].
    destruct (Hown e He' Ho) as (t & c & Ht & Hrest).
    exists t, c. split; [|exact Hrest].
    rewrite get_set_other; [exact Ht | congruence].
  - intros k t Hk Hchecked. destruct (string_dec id k) as [<- | Hne].
    + rewrite get_set_same in Hk. congruence.
    + rewrite get_set_other in Hk by assumption.
      destruct (Hhas k t Hk Hchecked) as (e & He & Ho & Hk').
      exists e. split; [|now split].
      apply values_set; [exact Hnd_es|]. right.
      apply values_get in He; [|exact Hnd_es]. destruct He as [k0 Hk0].
      exists k0. split; [|exact Hk0]. intros ->.
      pose proof (wellFormed_value_get _ _ Hwf Hin) as Hte. simp_state.
      rewrite Hte in Hk0. congruence.
Qed.

(** Under the invariant, a check-out on the date of the check-in finds
    the open entry. *)
Lemma open_entry_found (id : string) (teacher : Teacher.t)
  (checkInTime : Date) (today : string) :
  JsMap.get id ts = Some teacher ->
  Teacher.isCheckedIn teacher = Some true ->
  Teacher.currentCheckInTime teacher = Some checkInTime ->
  today = IsoDate.toISODate checkInTime ->
  exists todayEntry,
    find (Routes.isOpenOn today)
         (filter (fun entry => String.eqb (TimeEntry.teacherId entry) id)
                 (JsMap.values es)) = Some todayEntry.
Proof.
  intros Hget Hchecked Hcur Htoday.
  pose proof Hinv as (Huniq & Hown & Hhas). simp_state.
  destruct (Hhas id teacher Hget Hchecked) as (e & He & Ho & Hid).
  destruct (Hown e He Ho) as (t & c & Ht & _ & Hc & Hdate).
  rewrite Hid, Hget in Ht. injection Ht as <-.
  rewrite Hcur in Hc. injection Hc as <-.
  destruct (find _ _) as [found|] eqn:E; [now exists found|].
  exfalso.
  assert (Hf : Routes.isOpenOn today e = false).
  { apply (find_none _ _ E). apply filter_In.
    split; [exact He | now apply String.eqb_eq]. }
  unfold Routes.isOpenOn in Hf.
  rewrite Hdate, <- Htoday, String.eqb_refl in Hf.
  unfold isOpen in Ho. cbn [andb] in Hf. congruence.
Qed.

Lemma values_NoDup : NoDup (JsMap.values es).
Proof.
  apply wellFormed_spec in Hwf. destruct Hwf as (_ & Hnd & Hkey).
  simp_state. apply (NoDup_map_inv TimeEntry.id).
  unfold JsMap.values. rewrite map_map.
  rewrite (map_ext_in _ fst); [exact Hnd|].
  intros [k e] Hin. simpl. now apply Hkey.
Qed.

(** In count: a teacher has at most one open entry. *)
Lemma oneOpenSession_count (id : string) :
  (List.length (openEntries id (MemStorage.mk ts es a)) <= 1)%nat.
Proof.
  destruct Hinv as (Huniq & _ & _). simp_state.
  unfold openEntries. simp_state.
  pose proof (NoDup_filter
                (fun entry => String.eqb (TimeEntry.teacherId entry) id
                              && isOpen entry) values_NoDup) as Hnd.
  destruct (filter _ _) as [|x [|y l]] eqn:E; simpl; try lia.
  exfalso.
  assert (Hx : In x (x :: y :: l)) by now left.
  assert (Hy : In y (x :: y :: l)) by (right; now left).
  rewrite <- E in Hx, Hy. apply filter_In in Hx, Hy.
  destruct Hx as [Hx Hx']. destruct Hy as [Hy Hy'].
  apply andb_true_iff in Hx', Hy'.
  destruct Hx' as [Hxid Hxo]. destruct Hy' as [Hyid Hyo].
  apply String.eqb_eq in Hxid, Hyid.
  assert (x = y) by (apply Huniq; congruence). subst y.
  inversion Hnd as [|? ? Hnotin _]. apply Hnotin. now left.
Qed.

End OneOpenSession.

Lemma oneOpenSession_empty (a : option AppSettings.t) :
  oneOpenSession (MemStorage.mk JsMap.empty JsMap.empty a).
Proof.
  split; [|split]; simp_state.
  - intros e1 e2 [].
  - intros e [].
  - intros id teacher Hget. discriminate Hget.
Qed.

Section SameDay.
Context `{Runtime}.

(** An orderly request keeps one open session per checked-in teacher and
    none for the others. *)
Lemma handle_oneOpenSession (env : Env) (req : Request)
  (this : MemStorage.t) (isAdmin : bool) :
  wellFormed this = true ->
  oneOpenSession this ->
  orderly env req this ->
  oneOpenSession
    (Routes.storage
       (snd (Routes.handle env req (Routes.mkServer this isAdmin)))).
Proof.
  intros Hwf Hinv Hord. destruct this as [ts es a].
  destruct req; cbn [Routes.handle orderly] in *; try contradiction;
    unfold Routes.getPinSetup, Routes.setupPin, Routes.validatePinRoute,
      Routes.checkAdmin, Routes.logout, Routes.reset, Routes.listTeachers,
      Routes.createTeacherRoute, Routes.checkin, Routes.checkout,
      Routes.listTimeEntries, Routes.exportTimesheet;
    step_state.
  1-7, 11-12:
    repeat case_innermost;
    first [ exact Hinv | apply oneOpenSession_empty
          | exact (oneOpenSession_settings ts es a Hinv _) ].
  - (* teacher creation *)
    destruct isAdmin; simp_state; [|exact Hinv].
    destruct (insertTeacherSchema_parse b); simp_state; [|exact Hinv].
    apply oneOpenSession_createTeacher; try assumption. discriminate.
  - (* check-in *)
    destruct (JsMap.get id ts) as [teacher|] eqn:Hget; simp_state;
      [|exact Hinv].
    destruct (truthy_bool (Teacher.isCheckedIn teacher)) eqn:Hchecked;
      simp_state; [exact Hinv|].
    rewrite Hget. simp_state.
    apply truthy_bool_false in Hchecked.
    eapply oneOpenSession_checkin; try eassumption; reflexivity.
  - (* check-out *)
    destruct (JsMap.get id ts) as [teacher|] eqn:Hget; simp_state;
      [|exact Hinv].
    destruct (Teacher.isCheckedIn teacher) as [[|]|] eqn:Hchecked;
      simp_state; try exact Hinv.
    destruct (Teacher.currentCheckInTime teacher) as [checkInTime|] eqn:Hcur;
      simp_state; [|exact Hinv].
    rewrite Hget. simp_state.
    destruct (open_entry_found ts es a Hinv id teacher checkInTime
                (IsoDate.toISODate (now env)) Hget Hchecked Hcur
                (Hord teacher checkInTime eq_refl Hcur))
      as [todayEntry Hfind].
    rewrite Hfind. simp_state.
    apply find_some in Hfind. destruct Hfind as [Hin Hopen].
    apply filter_In in Hin. destruct Hin as [Hin Hid].
    apply String.eqb_eq in Hid.
    unfold Routes.isOpenOn in Hopen. apply andb_true_iff in Hopen.
    destruct Hopen as [_ Hopen].
    pose proof (wellFormed_value_get _ _ Hwf Hin) as Hentry. simp_state.
    rewrite Hentry. simp_state.
    eapply oneOpenSession_checkout; try eassumption.
    + discriminate.
    + reflexivity.
Qed.

(** Along an orderly run from start-up the store is well formed and every
    teacher has exactly one open entry while checked in and none
    otherwise. *)
Lemma orderly_run_invariant (reqs : list (Env * Request))
  (srv : Routes.Server) :
  wellFormed (Routes.storage srv) = true ->
  oneOpenSession (Routes.storage srv) ->
  orderlyRun reqs srv ->
  oneOpenSession (Routes.storage (Routes.run reqs srv)).
Proof.
  revert srv. induction reqs as [|[env req] reqs IH];
    intros srv Hwf Hinv Hord; simpl in *.
  - exact Hinv.
  - destruct Hord as [Hstep Hrest]. destruct srv as [this isAdmin].
    apply IH; [now apply handle_wellFormed | | exact Hrest].
    now apply handle_oneOpenSession.
Qed.

(** X23. Along a run from start-up without admin edits and deletions, in
    which every id drawn is new and every check-out falls on the UTC date
    of its check-in, each teacher who is checked in has exactly one open
    entry, dated on the day of the check-in, and every other teacher has
    none. *)
Lemma orderly_run_oneOpenSession (reqs : list (Env * Request)) :
  orderlyRun reqs Routes.initial ->
  oneOpenSession (Routes.storage (Routes.run reqs Routes.initial)).
Proof.
  apply orderly_run_invariant.
  - reflexivity.
  - apply oneOpenSession_empty.
Qed.

End SameDay.

(** ** The PIN, the session and the admin gate *)

Lemma pinSchema_parse_spec (b : PinBody) (p : string) :
  pinSchema_parse b = Some p <->
  pin b = Some p /\ (4 <= String.length p)%nat /\ (String.length p <= 6)%nat.
Proof.
  unfold pinSchema_parse. destruct (pin b) as [s|].
  - destruct (Nat.leb_spec 4 (String.length s));
      destruct (Nat.leb_spec (String.length s) 6); cbn [andb]; split;
      try discriminate;
      try (intros [= <-]; auto);
      intros [[= <-] [H4 H6]]; try reflexivity; lia.
  - split; [discriminate | intros [Hp _]; discriminate Hp].
Qed.

Section SessionFacts.
Context `{Runtime}.


(** X2. The first PIN setup: with no settings yet and a PIN of four to six
    characters, the setup answers 200 and stores the hash of the PIN under
    a new id, leaves teachers, time entries and the caller's session as
    they were (it does not log the caller in), the PIN status then reports
    hasPin = true, and validating the same PIN answers 200 and makes the
    session admin, given that bcrypt.compare accepts a PIN against its own
    hash. *)
Theorem setup_then_validate (env : Env) (b : PinBody) (p : string)
  (srv : Routes.Server) :
  (forall pin salt, bcrypt_compare pin (bcrypt_hash pin salt) = true) ->
  MemStorage.appSettings (Routes.storage srv) = None ->
  pin b = Some p ->
  (4 <= String.length p)%nat -> (String.length p <= 6)%nat ->
  let (response, srv1) := Routes.setupPin env b srv in
  let (validated, srv2) := Routes.validatePinRoute b srv1 in
  response = json (Message "PIN set up successfully")
  /\ MemStorage.appSettings (Routes.storage srv1)
     = Some (AppSettings.mk (randomUUID env) (bcrypt_hash p (salt env)))
  /\ MemStorage.teachers (Routes.storage srv1)
     = MemStorage.teachers (Routes.storage srv)
  /\ MemStorage.timeEntries (Routes.storage srv1)
     = MemStorage.timeEntries (Routes.storage srv)
  /\ Routes.session_isAdmin srv1 = Routes.session_isAdmin srv
  /\ fst (Routes.getPinSetup srv1) = json (HasPin true)
  /\ validated = json (Message "PIN validated successfully")
  /\ Routes.session_isAdmin srv2 = true
  /\ Routes.storage srv2 = Routes.storage srv1.
Proof.
  intros Hsound Hnone Hp H4 H6. destruct srv as [this isAdmin].
  assert (Hparse : pinSchema_parse b = Some p)
    by (apply pinSchema_parse_spec; auto).
  unfold Routes.setupPin, Routes.validatePinRoute, Routes.getPinSetup.
  rewrite Hparse. step_state. rewrite Hnone. simp_state.
  cbn [AppSettings.pinHash]. rewrite Hsound. simp_state.
  repeat split; reflexivity.
Qed.

(** X3. A body without a PIN, or with a PIN shorter than four or longer
    than six characters, is answered 400 "Invalid PIN format" by the setup
    and by the validation alike, whether or not a PIN exists, and nothing
    changes. *)
Theorem malformed_pin_rejected (env : Env) (b : PinBody)
  (srv : Routes.Server) :
  (forall p, pin b = Some p ->
             (String.length p < 4)%nat \/ (6 < String.length p)%nat) ->
  Routes.setupPin env b srv = (fail 400 "Invalid PIN format", srv)
  /\ Routes.validatePinRoute b srv = (fail 400 "Invalid PIN format", srv).
Proof.
  intros Hbad.
  assert (Hparse : pinSchema_parse b = None).
  { destruct (pinSchema_parse b) as [p|] eqn:E; [|reflexivity].
    apply pinSchema_parse_spec in E. destruct E as (Hp & H4 & H6).
    destruct (Hbad p Hp); lia. }
  unfold Routes.setupPin, Routes.validatePinRoute. rewrite Hparse.
  split; reflexivity.
Qed.

(** X4. Without an admin session, teacher creation, admin edit,
    deletion and the timesheet export are answered 403 "Admin access
    required" whatever they carry, and nothing changes. *)
Theorem admin_gate (env : Env) (req : Request) (srv : Routes.Server) :
  Routes.session_isAdmin srv = false ->
  adminOnly req = true ->
  Routes.handle env req srv = (fail 403 "Admin access required", srv).
Proof.
  intros Hno Hgated. destruct srv as [this isAdmin]. simp_state.
  subst isAdmin. destruct req; try discriminate Hgated; reflexivity.
Qed.

(** X5. Every other request except the session query is served without
    looking at the session: check-in, check-out, the listings, the PIN
    routes and also the reset of all data give the same response and the
    same store to a caller who is not logged in as to an admin. *)
Theorem ungated_requests_ignore_session (env : Env) (req : Request)
  (this : MemStorage.t) (isAdmin isAdmin' : bool) :
  adminOnly req = false ->
  req <> GetCheckAdmin ->
  fst (Routes.handle env req (Routes.mkServer this isAdmin))
  = fst (Routes.handle env req (Routes.mkServer this isAdmin'))
  /\ Routes.storage
       (snd (Routes.handle env req (Routes.mkServer this isAdmin)))
     = Routes.storage
         (snd (Routes.handle env req (Routes.mkServer this isAdmin'))).
Proof.
  intros Hgated Hquery.
  destruct req; try discriminate Hgated; try congruence;
    cbn [Routes.handle];
    unfold Routes.getPinSetup, Routes.setupPin, Routes.validatePinRoute,
      Routes.logout, Routes.reset, Routes.listTeachers, Routes.checkin,
      Routes.checkout, Routes.listTimeEntries;
    step_state; repeat case_innermost; split; reflexivity.
Qed.

(** X6. The reset needs no session and brings the server, from any state,
    back to its start-up state: no teacher, no time entry, no settings,
    the caller logged out.  After it no PIN validates, the PIN status
    reports hasPin = false and every check-in is answered 404. *)
Theorem reset_restores_startup (srv : Routes.Server) :
  let (response, srv') := Routes.reset srv in
  response = json (Message "All data reset successfully")
  /\ srv' = Routes.initial
  /\ fst (Routes.getPinSetup srv') = json (HasPin false)
  /\ (forall b, status (fst (Routes.validatePinRoute b srv')) <> 200)
  /\ (forall env id,
        Routes.checkin env id srv' = (fail 404 "Teacher not found", srv')).
Proof.
  destruct srv as [this isAdmin]. unfold Routes.reset. step_state.
  repeat split.
  intros b. unfold Routes.validatePinRoute.
  destruct (pinSchema_parse b); discriminate.
Qed.

End SessionFacts.

(** ** Teachers and sessions: effects and frames *)

Lemma delete_missing {V : Type} (k : string) (m : JsMap.t V) :
  JsMap.get k m = None -> JsMap.delete k m = m.
Proof.
  induction m as [|[k' v'] m IH]; simpl; [reflexivity|].
  destruct (String.eqb k k'); [discriminate|].
  intros Hg. now rewrite IH.
Qed.

Lemma values_set_fresh {V : Type} (k : string) (v : V) (m : JsMap.t V) :
  JsMap.get k m = None ->
  JsMap.values (JsMap.set k v m) = (JsMap.values m ++ [v])%list.
Proof.
  unfold JsMap.values.
  induction m as [|[k' v'] m IH]; simpl; [reflexivity|].
  destruct (String.eqb k k'); [discriminate|].
  intros Hg. simpl. now rewrite IH.
Qed.

Lemma keys_set_present {V : Type} (k : string) (v v0 : V) (m : JsMap.t V) :
  JsMap.get k m = Some v0 -> JsMap.keys (JsMap.set k v m) = JsMap.keys m.
Proof. intros Hg. rewrite keys_set. unfold JsMap.has. now rewrite Hg. Qed.

Lemma keys_set_incl {V : Type} (k k0 : string) (v : V) (m : JsMap.t V) :
  In k0 (JsMap.keys m) -> In k0 (JsMap.keys (JsMap.set k v m)).
Proof.
  intros Hin. rewrite keys_set. destruct (JsMap.has k m); [assumption|].
  apply in_or_app. now left.
Qed.

Section TeacherFacts.
Context `{Runtime}.

(** X7. For an admin and a body with the three fields as strings, teacher
    creation answers 201 with a teacher that has the drawn id, the fields
    of the body, isCheckedIn = false and currentCheckInTime = null; the
    store then holds that teacher under that id, every other teacher, the
    time entries and the settings are as before, and when the id is new
    the teacher comes last in the list of teachers. *)
Theorem create_teacher_roundtrip (env : Env) (b : TeacherBody)
  (srv : Routes.Server) (name hourlyRate maxBillableHours : string) :
  Routes.session_isAdmin srv = true ->
  body_name b = Some name ->
  body_hourlyRate b = Some hourlyRate ->
  body_maxBillableHours b = Some maxBillableHours ->
  let teacher :=
    Teacher.mk (randomUUID env) name hourlyRate maxBillableHours
      (Some false) None in
  let (response, srv') := Routes.createTeacherRoute env b srv in
  response = mkResponse 201 (OneTeacher (Some teacher))
  /\ JsMap.get (randomUUID env) (MemStorage.teachers (Routes.storage srv'))
     = Some teacher
  /\ (forall id, id <> randomUUID env ->
        JsMap.get id (MemStorage.teachers (Routes.storage srv'))
        = JsMap.get id (MemStorage.teachers (Routes.storage srv)))
  /\ (JsMap.get (randomUUID env) (MemStorage.teachers (Routes.storage srv))
      = None ->
      fst (Routes.listTeachers srv')
      = json (TeacherList
                (JsMap.values (MemStorage.teachers (Routes.storage srv))
                 ++ [teacher])))
  /\ MemStorage.timeEntries (Routes.storage srv')
     = MemStorage.timeEntries (Routes.storage srv)
  /\ MemStorage.appSettings (Routes.storage srv')
     = MemStorage.appSettings (Routes.storage srv)
  /\ Routes.session_isAdmin srv' = true.
Proof.
  intros Hadmin Hn Hr Hm. destruct srv as [this isAdmin]. simp_state.
  subst isAdmin.
  unfold Routes.createTeacherRoute, Routes.listTeachers,
    insertTeacherSchema_parse.
  rewrite Hn, Hr, Hm. step_state.
  cbn [InsertTeacher.name InsertTeacher.hourlyRate
       InsertTeacher.maxBillableHours].
  repeat split.
  - apply get_set_same.
  - intros id Hne. apply get_set_other. congruence.
  - intros Hfresh. now rewrite values_set_fresh.
Qed.

(** X8. An id that is the key of no teacher: check-in and check-out are
    answered 404 "Teacher not found", and for an admin so are the edit
    and the deletion; a creation whose body lacks one of the three fields
    is answered 400 "Invalid teacher data".  In each case nothing
    changes. *)
Theorem unknown_teacher_not_found (env : Env) (id : string)
  (srv : Routes.Server) :
  JsMap.get id (MemStorage.teachers (Routes.storage srv)) = None ->
  Routes.checkin env id srv = (fail 404 "Teacher not found", srv)
  /\ Routes.checkout env id srv = (fail 404 "Teacher not found", srv)
  /\ (Routes.session_isAdmin srv = true ->
      (forall updates,
         Routes.patchTeacher id updates srv
         = (fail 404 "Teacher not found", srv))
      /\ Routes.deleteTeacherRoute id srv
         = (fail 404 "Teacher not found", srv)
      /\ (forall b,
            body_name b = None \/ body_hourlyRate b = None
            \/ body_maxBillableHours b = None ->
            Routes.createTeacherRoute env b srv
            = (fail 400 "Invalid teacher data", srv))).
Proof.
  intros Hnone. destruct srv as [[ts es a] isAdmin]. simp_state.
  unfold Routes.checkin, Routes.checkout, Routes.patchTeacher,
    Routes.deleteTeacherRoute, Routes.createTeacherRoute.
  step_state. rewrite Hnone. simp_state.
  split; [reflexivity | split; [reflexivity|]].
  intros ->. simp_state. unfold JsMap.has. rewrite Hnone. simp_state.
  rewrite (delete_missing _ _ Hnone).
  split; [reflexivity | split; [reflexivity|]].
  intros b Hmissing. unfold insertTeacherSchema_parse.
  destruct Hmissing as [-> | [Hm | Hm]].
  - reflexivity.
  - rewrite Hm. now destruct (body_name b).
  - rewrite Hm. now destruct (body_name b), (body_hourlyRate b).
Qed.

Lemma spread_checkedInAt (teacher : Teacher.t) (t0 : Date) :
  spreadTeacher teacher
    {| PartialTeacher.id := None;
       PartialTeacher.name := None;
       PartialTeacher.hourlyRate := None;
       PartialTeacher.maxBillableHours := None;
       PartialTeacher.isCheckedIn := Some (Some true);
       PartialTeacher.currentCheckInTime := Some (Some t0) |}
  = checkedInAt teacher t0.
Proof. reflexivity. Qed.

(** The server after a successful check-in. *)
Lemma checkin_result (env : Env) (id : string) (this : MemStorage.t)
  (isAdmin : bool) (teacher : Teacher.t) :
  JsMap.get id (MemStorage.teachers this) = Some teacher ->
  Teacher.isCheckedIn teacher <> Some true ->
  Routes.checkin env id (Routes.mkServer this isAdmin)
  = (json (OneTeacher (Some (checkedInAt teacher (now env)))),
     Routes.mkServer
       (MemStorage.mk
          (JsMap.set id (checkedInAt teacher (now env))
             (MemStorage.teachers this))
          (JsMap.set (randomUUID env) (openedEntry env id)
             (MemStorage.timeEntries this))
          (MemStorage.appSettings this))
       isAdmin).
Proof.
  intros Hget Hnot. apply truthy_bool_false in Hnot.
  unfold Routes.checkin. step_state. rewrite Hget. simp_state.
  rewrite Hnot. simp_state. rewrite Hget. simp_state. reflexivity.
Qed.

(** X9. Check-in of a teacher who is not checked in answers 200 with the
    teacher marked isCheckedIn = true and currentCheckInTime = now, rate,
    cap, name and id untouched.  The store holds that teacher under the
    same key, in the same place of the list; a new entry is stored under
    the drawn id, for this teacher, dated with the UTC date of now, with
    checkInTime = now and no check-out, hours or pay; when the id is new
    the entry comes last.  Every other teacher and entry is as before. *)
Theorem checkin_opens_session (env : Env) (id : string)
  (srv : Routes.Server) (teacher : Teacher.t) :
  JsMap.get id (MemStorage.teachers (Routes.storage srv)) = Some teacher ->
  Teacher.isCheckedIn teacher <> Some true ->
  let (response, srv') := Routes.checkin env id srv in
  response = json (OneTeacher (Some (checkedInAt teacher (now env))))
  /\ JsMap.get id (MemStorage.teachers (Routes.storage srv'))
     = Some (checkedInAt teacher (now env))
  /\ (forall id', id' <> id ->
        JsMap.get id' (MemStorage.teachers (Routes.storage srv'))
        = JsMap.get id' (MemStorage.teachers (Routes.storage srv)))
  /\ JsMap.keys (MemStorage.teachers (Routes.storage srv'))
     = JsMap.keys (MemStorage.teachers (Routes.storage srv))
  /\ JsMap.get (randomUUID env)
       (MemStorage.timeEntries (Routes.storage srv'))
     = Some (openedEntry env id)
  /\ (forall k, k <> randomUUID env ->
        JsMap.get k (MemStorage.timeEntries (Routes.storage srv'))
        = JsMap.get k (MemStorage.timeEntries (Routes.storage srv)))
  /\ (JsMap.get (randomUUID env)
        (MemStorage.timeEntries (Routes.storage srv)) = None ->
      JsMap.values (MemStorage.timeEntries (Routes.storage srv'))
      = (JsMap.values (MemStorage.timeEntries (Routes.storage srv))
         ++ [openedEntry env id])%list)
  /\ MemStorage.appSettings (Routes.storage srv')
     = MemStorage.appSettings (Routes.storage srv)
  /\ Routes.session_isAdmin srv' = Routes.session_isAdmin srv.
Proof.
  intros Hget Hnot. destruct srv as [this isAdmin]. simp_state.
  rewrite (checkin_result env id this isAdmin teacher Hget Hnot).
  simp_state. repeat split.
  - apply get_set_same.
  - intros id' Hne. apply get_set_other. congruence.
  - now apply keys_set_present with (v0 := teacher).
  - apply get_set_same.
  - intros k Hne. apply get_set_other. congruence.
  - apply values_set_fresh.
Qed.

End TeacherFacts.

(** ** Sessions from check-in to check-out *)

Lemma find_app_none {A : Type} (f : A -> bool) (l1 l2 : list A) :
  (forall x, In x l1 -> f x = false) -> find f (l1 ++ l2) = find f l2.
Proof.
  induction l1 as [|a l1 IH]; intros Hall; simpl; [reflexivity|].
  rewrite (Hall a (or_introl eq_refl)). apply IH.
  intros x Hx. apply Hall. now right.
Qed.

Ltac unfold_handlers :=
  cbn [Routes.handle];
  unfold Routes.getPinSetup, Routes.setupPin, Routes.validatePinRoute,
    Routes.checkAdmin, Routes.logout, Routes.reset, Routes.listTeachers,
    Routes.createTeacherRoute, Routes.patchTeacher,
    Routes.deleteTeacherRoute, Routes.checkin, Routes.checkout,
    Routes.listTimeEntries, Routes.exportTimesheet;
  step_state.

Section SessionCycle.
Context `{Runtime}.

(** The entry of a check-in is what a check-out of the same date finds
    when nothing else of the teacher is open. *)
Lemma opened_found (env : Env) (today id : string) :
  today = IsoDate.toISODate (now env) ->
  find (Routes.isOpenOn today)
       (filter (fun entry => String.eqb (TimeEntry.teacherId entry) id)
               [openedEntry env id])
  = Some (openedEntry env id).
Proof.
  intros ->. cbn [filter].
  change (TimeEntry.teacherId (openedEntry env id)) with id.
  rewrite String.eqb_refl. cbn [find]. unfold Routes.isOpenOn.
  change (TimeEntry.date (openedEntry env id))
    with (IsoDate.toISODate (now env)).
  rewrite String.eqb_refl. reflexivity.
Qed.

(** X10. Round trip of a session.  A teacher who is not checked in and has
    no open entry dated today checks in (the entry id being new) and
    checks out on the same UTC date: the check-out answers 200 with the
    teacher checked out, and the entry the check-in created is the one
    finalized, with checkOutTime = the check-out instant and hours, capped
    hours and pay computed from the two instants; every other entry is as
    it was before the check-in. *)
Theorem checkin_checkout_roundtrip (envIn envOut : Env) (id : string)
  (srv : Routes.Server) (teacher : Teacher.t) :
  JsMap.get id (MemStorage.teachers (Routes.storage srv)) = Some teacher ->
  Teacher.isCheckedIn teacher <> Some true ->
  JsMap.get (randomUUID envIn) (MemStorage.timeEntries (Routes.storage srv))
  = None ->
  IsoDate.toISODate (now envOut) = IsoDate.toISODate (now envIn) ->
  (forall entry,
     In entry (JsMap.values (MemStorage.timeEntries (Routes.storage srv))) ->
     TimeEntry.teacherId entry = id ->
     TimeEntry.date entry = IsoDate.toISODate (now envIn) ->
     TimeEntry.checkOutTime entry <> None) ->
  let hoursWorked :=
    num_div (num_sub (getTime (now envOut)) (getTime (now envIn)))
            (num_of_Z 3600000) in
  let billableHours :=
    Math_min hoursWorked (parseFloat (Teacher.maxBillableHours teacher)) in
  let pay :=
    num_mul billableHours (parseFloat (Teacher.hourlyRate teacher)) in
  let (response, srv') :=
    Routes.checkout envOut id (snd (Routes.checkin envIn id srv)) in
  response = json (OneTeacher (Some (checkedOut teacher)))
  /\ JsMap.get id (MemStorage.teachers (Routes.storage srv'))
     = Some (checkedOut teacher)
  /\ JsMap.get (randomUUID envIn)
       (MemStorage.timeEntries (Routes.storage srv'))
     = Some (finalized (openedEntry envIn id) (now envOut)
               (num_toString hoursWorked) (num_toString billableHours)
               (num_toString pay))
  /\ (forall k, k <> randomUUID envIn ->
        JsMap.get k (MemStorage.timeEntries (Routes.storage srv'))
        = JsMap.get k (MemStorage.timeEntries (Routes.storage srv))).
Proof.
  intros Hget Hnot Hfresh Hday Hnone. destruct srv as [this isAdmin].
  simp_state.
  rewrite (checkin_result envIn id this isAdmin teacher Hget Hnot).
  simp_state. unfold Routes.checkout. step_state.
  rewrite get_set_same. simp_state.
  cbn [checkedInAt Teacher.isCheckedIn Teacher.currentCheckInTime]. simp_state.
  rewrite get_set_same. simp_state.
  rewrite values_set_fresh by exact Hfresh.
  rewrite filter_app, find_app_none.
  - rewrite (opened_found envIn _ id Hday). simp_state.
    change (TimeEntry.id (openedEntry envIn id)) with (randomUUID envIn).
    rewrite get_set_same. simp_state.
    repeat split.
    + apply get_set_same.
    + apply get_set_same.
    + intros k Hne. rewrite !get_set_other by congruence. reflexivity.
  - intros entry Hentry. apply filter_In in Hentry.
    destruct Hentry as [Hentry Hid]. apply String.eqb_eq in Hid.
    unfold Routes.isOpenOn. rewrite Hday.
    destruct (String.eqb (TimeEntry.date entry)
                (IsoDate.toISODate (now envIn))) eqn:E; [|reflexivity].
    apply String.eqb_eq in E. specialize (Hnone entry Hentry Hid E).
    destruct (TimeEntry.checkOutTime entry); [reflexivity | congruence].
Qed.

(** X11. A completed entry is final: in a well-formed store no request
    other than the reset changes or removes an entry that has a
    checkOutTime (its hours and pay are never derived again), provided a
    check-in does not draw the id of that entry. *)
Theorem completed_entry_is_final (env : Env) (req : Request)
  (srv : Routes.Server) (k : string) (entry : TimeEntry.t) :
  wellFormed (Routes.storage srv) = true ->
  JsMap.get k (MemStorage.timeEntries (Routes.storage srv)) = Some entry ->
  TimeEntry.checkOutTime entry <> None ->
  req <> PostReset ->
  randomUUID env <> k ->
  JsMap.get k
    (MemStorage.timeEntries (Routes.storage (snd (Routes.handle env req srv))))
  = Some entry.
Proof.
  intros Hwf Hget Hdone Hreset Hid. destruct srv as [[ts es a] isAdmin].
  simp_state.
  destruct req; try congruence; unfold_handlers;
    repeat case_innermost; try assumption.
  (* a check-in writes under the id it draws *)
  all: try (rewrite get_set_other by assumption; exact Hget).
  (* a check-out writes under the id of an open entry *)
  all: match goal with
       | Hfind : find _ _ = Some ?te |- _ =>
           apply find_some in Hfind; destruct Hfind as [Hin Hopen];
           apply filter_In in Hin; destruct Hin as [Hin _];
           pose proof (wellFormed_value_get _ _ Hwf Hin) as Hte;
           simp_state;
           destruct (string_dec (TimeEntry.id te) k) as [Heq | Hne];
           [ exfalso; rewrite Heq, Hget in Hte; injection Hte as ->;
             unfold Routes.isOpenOn in Hopen;
             apply andb_true_iff in Hopen; destruct Hopen as [_ Hopen];
             destruct (TimeEntry.checkOutTime _); [discriminate | congruence]
           | rewrite get_set_other by assumption; exact Hget ]
       end.
Qed.

(** X12. Check-in and check-out, whatever their outcome, keep the list of
    teachers in its order and change no teacher's id, name, hourly rate or
    cap; a teacher other than the one addressed is not changed at all. *)
Theorem sessions_keep_teacher_data (env : Env) (id : string) (req : Request)
  (srv : Routes.Server) :
  req = PostCheckin id \/ req = PostCheckout id ->
  let srv' := snd (Routes.handle env req srv) in
  JsMap.keys (MemStorage.teachers (Routes.storage srv'))
  = JsMap.keys (MemStorage.teachers (Routes.storage srv))
  /\ forall k teacher,
       JsMap.get k (MemStorage.teachers (Routes.storage srv)) = Some teacher ->
       exists teacher',
         JsMap.get k (MemStorage.teachers (Routes.storage srv'))
         = Some teacher'
         /\ Teacher.id teacher' = Teacher.id teacher
         /\ Teacher.name teacher' = Teacher.name teacher
         /\ Teacher.hourlyRate teacher' = Teacher.hourlyRate teacher
         /\ Teacher.maxBillableHours teacher'
            = Teacher.maxBillableHours teacher
         /\ (k <> id -> teacher' = teacher).
Proof.
  intros Hreq. destruct srv as [[ts es a] isAdmin].
  assert (Hsame : forall t',
             (exists t, JsMap.get id ts = Some t
                        /\ Teacher.id t' = Teacher.id t
                        /\ Teacher.name t' = Teacher.name t
                        /\ Teacher.hourlyRate t' = Teacher.hourlyRate t
                        /\ Teacher.maxBillableHours t'
                           = Teacher.maxBillableHours t) ->
             JsMap.keys (JsMap.set id t' ts) = JsMap.keys ts
             /\ forall k teacher,
                  JsMap.get k ts = Some teacher ->
                  exists teacher',
                    JsMap.get k (JsMap.set id t' ts) = Some teacher'
                    /\ Teacher.id teacher' = Teacher.id teacher
                    /\ Teacher.name teacher' = Teacher.name teacher
                    /\ Teacher.hourlyRate teacher'
                       = Teacher.hourlyRate teacher
                    /\ Teacher.maxBillableHours teacher'
                       = Teacher.maxBillableHours teacher
                    /\ (k <> id -> teacher' = teacher)).
  { intros t' (t & Ht & Hi & Hn & Hr & Hm). split.
    - now apply keys_set_present with (v0 := t).
    - intros k teacher Hk. destruct (string_dec id k) as [<- | Hne].
      + exists t'. rewrite get_set_same.
        assert (teacher = t) by congruence. subst.
        repeat split; auto. congruence.
      + exists teacher. rewrite get_set_other by assumption.
        repeat split; auto. }
  assert (Hid : forall k teacher,
             JsMap.get k ts = Some teacher ->
             exists teacher',
               JsMap.get k ts = Some teacher'
               /\ Teacher.id teacher' = Teacher.id teacher
               /\ Teacher.name teacher' = Teacher.name teacher
               /\ Teacher.hourlyRate teacher' = Teacher.hourlyRate teacher
               /\ Teacher.maxBillableHours teacher'
                  = Teacher.maxBillableHours teacher
               /\ (k <> id -> teacher' = teacher))
    by (intros k teacher Hk; exists teacher; repeat split; auto).
  destruct Hreq as [-> | ->]; unfold_handlers; cbv zeta;
    repeat case_innermost; simp_state;
    try (split; [reflexivity | exact Hid]);
    repeat match goal with
      | Heq : Some _ = Some _ |- _ => injection Heq as Heq; subst
      end;
    (apply Hsame; eexists; (split; [reflexivity|]); repeat split).
Qed.

(** X13. Time entries are removed by the reset only: after any other
    request every key of the time-entry map is still a key; and only a
    check-in adds one, every request that is neither a check-in nor the
    reset leaves the keys and their order as they were. *)
Theorem entries_are_never_deleted (env : Env) (req : Request)
  (srv : Routes.Server) :
  req <> PostReset ->
  let srv' := snd (Routes.handle env req srv) in
  (forall k,
     In k (JsMap.keys (MemStorage.timeEntries (Routes.storage srv))) ->
     In k (JsMap.keys (MemStorage.timeEntries (Routes.storage srv'))))
  /\ ((forall id, req <> PostCheckin id) ->
      JsMap.keys (MemStorage.timeEntries (Routes.storage srv'))
      = JsMap.keys (MemStorage.timeEntries (Routes.storage srv))).
Proof.
  intros Hreset. destruct srv as [[ts es a] isAdmin].
  destruct req; try congruence; unfold_handlers; cbv zeta;
    repeat case_innermost; simp_state;
    (split;
     [ intros k Hin; first [exact Hin | now apply keys_set_incl]
     | intros Hnot;
       first [ reflexivity
             | eapply keys_set_present; eassumption
             | exfalso; eapply Hnot; reflexivity ] ]).
Qed.

End SessionCycle.

(** ** Listings and the export, as a whole *)

Lemma insert_perm {A : Type} (cmp : A -> A -> option Z) (x : A) (l : list A) :
  Permutation (JsArray.insert cmp x l) (x :: l).
Proof.
  induction l as [|y l IH]; simpl; [reflexivity|].
  destruct (JsArray.goesAfter cmp x y); [|reflexivity].
  rewrite IH. apply perm_swap.
Qed.

Lemma sort_perm {A : Type} (cmp : A -> A -> option Z) (l : list A) :
  Permutation (JsArray.sort cmp l) l.
Proof.
  induction l as [|x l IH]; simpl; [reflexivity|].
  rewrite insert_perm. now constructor.
Qed.

Lemma teachersKeyedById_spec (this : MemStorage.t) :
  teachersKeyedById this = true <->
  (forall k t, In (k, t) (MemStorage.teachers this) -> Teacher.id t = k).
Proof.
  unfold teachersKeyedById. rewrite forallb_forall. split.
  - intros Hall k t Hin. apply String.eqb_eq. exact (Hall (k, t) Hin).
  - intros Hall [k t] Hin. apply String.eqb_eq. simpl. now apply Hall.
Qed.

Lemma find_by_id (ts : JsMap.t Teacher.t) (k : string) (teacher : Teacher.t) :
  (forall k0 t0, In (k0, t0) ts -> Teacher.id t0 = k0) ->
  JsMap.get k ts = Some teacher ->
  find (fun t => String.eqb (Teacher.id t) k) (JsMap.values ts)
  = Some teacher.
Proof.
  induction ts as [|[k0 t0] ts IH]; simpl; intros Hkey Hget; [discriminate|].
  rewrite (Hkey k0 t0 (or_introl eq_refl)). rewrite String.eqb_sym.
  destruct (String.eqb k k0); [assumption|].
  apply IH; [|assumption]. intros k1 t1 Hin. apply Hkey. now right.
Qed.

Section ListingFacts.
Context `{Runtime}.

(** X14. For an admin the export answers 200, changes nothing and has one
    row for each completed entry and no other: the rows are a permutation
    of the rows made of the entries that have a checkOutTime. *)
Theorem export_one_row_per_completed_entry (q : ExportQuery)
  (srv : Routes.Server) :
  Routes.session_isAdmin srv = true ->
  let completed :=
    filter (fun entry => truthy_opt (TimeEntry.checkOutTime entry))
           (JsMap.values (MemStorage.timeEntries (Routes.storage srv))) in
  exists rows,
    Routes.exportTimesheet q srv = (json (ExportData rows), srv)
    /\ Permutation rows
         (map (Routes.exportRow
                 (JsMap.values (MemStorage.teachers (Routes.storage srv))))
              completed)
    /\ List.length rows = List.length completed.
Proof.
  intros Hadmin. destruct srv as [this isAdmin]. simp_state. subst isAdmin.
  unfold Routes.exportTimesheet. step_state. cbv zeta.
  eexists. split; [reflexivity|]. split.
  - apply sort_perm.
  - rewrite (Permutation_length (sort_perm _ _)). apply length_map.
Qed.

(** X15. The join of the export: when the teachers are stored under their
    own ids, a completed entry whose teacher exists, with a name and a
    rate that are not empty, has a row with that teacher's name and the
    teacher's present hourly rate beside the entry's own date, times,
    hours and pay. *)
Theorem export_joins_teacher (q : ExportQuery) (srv : Routes.Server)
  (entry : TimeEntry.t) (teacher : Teacher.t) :
  Routes.session_isAdmin srv = true ->
  teachersKeyedById (Routes.storage srv) = true ->
  In entry (JsMap.values (MemStorage.timeEntries (Routes.storage srv))) ->
  TimeEntry.checkOutTime entry <> None ->
  JsMap.get (TimeEntry.teacherId entry)
    (MemStorage.teachers (Routes.storage srv)) = Some teacher ->
  Teacher.name teacher <> "" ->
  Teacher.hourlyRate teacher <> "" ->
  exists rows,
    Routes.exportTimesheet q srv = (json (ExportData rows), srv)
    /\ In (joinedRow teacher entry) rows.
Proof.
  intros Hadmin Hkeyed Hin Hdone Hget Hname Hrate.
  destruct srv as [this isAdmin]. simp_state. subst isAdmin.
  unfold Routes.exportTimesheet. step_state. cbv zeta.
  eexists. split; [reflexivity|].
  apply sort_In. apply in_map_iff. exists entry. split.
  - unfold Routes.exportRow.
    rewrite (find_by_id _ _ teacher); [|now apply teachersKeyedById_spec|assumption].
    unfold truthy_string.
    apply String.eqb_neq in Hname, Hrate. rewrite Hname, Hrate. reflexivity.
  - apply filter_In. split; [assumption|].
    destruct (TimeEntry.checkOutTime entry); [reflexivity | congruence].
Qed.

(** X16. Teachers stay stored under their own id: every request other
    than an admin edit that carries an id keeps the id field of each
    teacher equal to its key. *)
Theorem teachers_stay_keyed (env : Env) (req : Request) (srv : Routes.Server) :
  (forall id updates,
     req = PatchTeacher id updates -> PartialTeacher.id updates = None) ->
  teachersKeyedById (Routes.storage srv) = true ->
  teachersKeyedById (Routes.storage (snd (Routes.handle env req srv))) = true.
Proof.
  intros Hpatch Hkeyed. destruct srv as [[ts es a] isAdmin].
  rewrite teachersKeyedById_spec in *. simp_state.
  assert (Hget : forall k t, JsMap.get k ts = Some t -> Teacher.id t = k)
    by (intros k t Hk; apply Hkeyed; now apply get_In).
  assert (Hset : forall k0 t0, Teacher.id t0 = k0 ->
             forall k t, In (k, t) (JsMap.set k0 t0 ts) -> Teacher.id t = k).
  { intros k0 t0 Hid k t Hin. apply In_set in Hin.
    destruct Hin as [[-> ->] | Hin]; auto. }
  destruct req; unfold_handlers; cbv zeta; repeat case_innermost;
    simp_state; try exact Hkeyed;
    repeat match goal with
      | Heq : Some _ = Some _ |- _ => injection Heq as Heq; subst
      end.
  all: try (apply Hset; cbn; eauto; fail).
  - (* reset *)
    intros k t [].
  - (* admin edit *)
    apply Hset. unfold spreadTeacher. cbn [Teacher.id].
    rewrite (Hpatch id updates eq_refl). cbn [over]. eauto.
  - (* deletion of a teacher that exists *)
    intros k t Hin. apply Hkeyed. now apply In_delete in Hin.
  - (* deletion of a teacher that does not *)
    intros k t Hin. apply Hkeyed. now apply In_delete in Hin.
Qed.

(** X17. The listing of time entries changes nothing.  With a teacherId
    that is not empty it returns the entries of that teacher and only
    those, whatever the date parameter; with no teacherId, or an empty
    one, and a date that is not empty it returns the entries of that date;
    otherwise every entry.  The order is that of the store. *)
Theorem time_entries_listing (teacherId date : option string)
  (srv : Routes.Server) :
  let all := JsMap.values (MemStorage.timeEntries (Routes.storage srv)) in
  exists entries,
    Routes.listTimeEntries teacherId date srv
    = (json (TimeEntryList entries), srv)
    /\ (forall id, teacherId = Some id -> id <> "" ->
          entries
          = filter (fun e => String.eqb (TimeEntry.teacherId e) id) all
          /\ forall e, In e entries <->
                       In e all /\ TimeEntry.teacherId e = id)
    /\ (forall d, (teacherId = None \/ teacherId = Some "") ->
          date = Some d -> d <> "" ->
          entries = filter (fun e => String.eqb (TimeEntry.date e) d) all
          /\ forall e, In e entries <-> In e all /\ TimeEntry.date e = d)
    /\ ((teacherId = None \/ teacherId = Some "") ->
        (date = None \/ date = Some "") -> entries = all).
Proof.
  destruct srv as [this isAdmin]. unfold Routes.listTimeEntries.
  assert (Hgiven : forall v, v <> "" -> Routes.given (Some v) = Some v).
  { intros v Hv. unfold Routes.given, truthy_string.
    apply String.eqb_neq in Hv. now rewrite Hv. }
  assert (Hnot : forall o, o = None \/ o = Some "" -> Routes.given o = None).
  { intros o [-> | ->]; reflexivity. }
  assert (Hmem : forall (f : TimeEntry.t -> string) v l e,
             In e (filter (fun e => String.eqb (f e) v) l) <->
             In e l /\ f e = v)
    by (intros; rewrite filter_In, String.eqb_eq; tauto).
  destruct (Routes.given teacherId) as [id0|] eqn:Et;
    [|destruct (Routes.given date) as [d0|] eqn:Ed]; step_state;
    eexists; (split; [reflexivity|]); (split; [|split]); intros; subst;
    repeat match goal with
      | Hn : _ \/ _ |- _ => apply Hnot in Hn
      | Hv : ?v <> "" |- _ => apply Hgiven in Hv
      end;
    try congruence;
    repeat match goal with
      | Hg : Routes.given ?o = Some ?x, Hg' : Routes.given ?o = Some ?y |- _ =>
          rewrite Hg in Hg'; injection Hg' as <-
      end;
    (split; [reflexivity | intros; apply Hmem]).
Qed.

End ListingFacts.

(** ** The client *)

Section ClientFacts.
Context `{Runtime}.

(** X18. The PIN form and the server agree on the format of a PIN.  What
    the form sends (the setup request when no PIN exists yet, else the
    validation) is never answered "Invalid PIN format"; and what the form
    refuses with its toast both routes would have refused with 400. *)
Theorem pin_form_agrees_with_server (isSetup : bool) (p : string)
  (env : Env) (srv : Routes.Server) :
  match Client.handleSubmit isSetup p with
  | Client.Mutate req =>
      req = (if isSetup then PostSetupPin (mkPinBody (Some p))
             else PostValidatePin (mkPinBody (Some p)))
      /\ fst (Routes.handle env req srv) <> fail 400 "Invalid PIN format"
  | Client.Toast _ description =>
      description = "PIN must be 4-6 digits"
      /\ fst (Routes.setupPin env (mkPinBody (Some p)) srv)
         = fail 400 "Invalid PIN format"
      /\ fst (Routes.validatePinRoute (mkPinBody (Some p)) srv)
         = fail 400 "Invalid PIN format"
  end.
Proof.
  unfold Client.handleSubmit.
  destruct (Nat.ltb_spec (String.length p) 4) as [Hshort | H4];
    [|destruct (Nat.ltb_spec 6 (String.length p)) as [Hlong | H6]];
    cbn [orb].
  1-2: assert (Hparse : pinSchema_parse (mkPinBody (Some p)) = None)
    by (destruct (pinSchema_parse _) as [p'|] eqn:E; [|reflexivity];
        apply pinSchema_parse_spec in E; cbn in E;
        destruct E as ([= <-] & ? & ?); lia).
  1-2: unfold Routes.setupPin, Routes.validatePinRoute; rewrite Hparse;
    repeat split.
  assert (Hparse : pinSchema_parse (mkPinBody (Some p)) = Some p)
    by (apply pinSchema_parse_spec; cbn; auto).
  destruct srv as [this isAdmin].
  destruct isSetup; (split; [reflexivity|]); cbn [Routes.handle];
    unfold Routes.setupPin, Routes.validatePinRoute; rewrite Hparse;
    step_state; repeat case_innermost; discriminate.
Qed.

End ClientFacts.

Lemma length_append (s1 s2 : string) :
  String.length (String.append s1 s2)
  = (String.length s1 + String.length s2)%nat.
Proof. induction s1 as [|c s1 IH]; simpl; [reflexivity | now rewrite IH]. Qed.

Lemma padStart2_length (n : Z) :
  0 <= n < 100 ->
  String.length (Client.padStart2 (Client.numberToString n)) = 2%nat.
Proof.
  intros Hn. rewrite <- (Z2Nat.id n) by lia.
  assert (Hk : (Z.to_nat n < 100)%nat) by lia.
  generalize dependent (Z.to_nat n). clear Hn. intros k Hk.
  do 100 (destruct k as [|k]; [reflexivity|]). lia.
Qed.

(** X19. The session timer.  For a check-in that is not in the future the
    timer shows the whole seconds elapsed, split into hours, minutes
    below 60 and seconds below 60, each padded to two digits; below a
    hundred hours the text has exactly eight characters. *)
Theorem timer_shows_elapsed_seconds (currentTime checkInTime : Date) :
  0 <= currentTime - checkInTime ->
  let elapsed := currentTime - checkInTime in
  let '(hours, minutes, seconds) := Client.timerFields elapsed in
  Client.formatTimer currentTime checkInTime
  = String.append (Client.padStart2 (Client.numberToString hours))
      (String.append ":"
         (String.append (Client.padStart2 (Client.numberToString minutes))
            (String.append ":"
               (Client.padStart2 (Client.numberToString seconds)))))
  /\ 0 <= hours /\ 0 <= minutes < 60 /\ 0 <= seconds < 60
  /\ hours * 3600 + minutes * 60 + seconds = elapsed / 1000
  /\ (elapsed < 100 * 3600000 ->
      String.length (Client.formatTimer currentTime checkInTime) = 8%nat).
Proof.
  intros Hpos. cbv zeta. unfold Client.formatTimer.
  destruct (Client.timerFields (currentTime - checkInTime))
    as [[hours minutes] seconds] eqn:E.
  unfold Client.timerFields in E. injection E as Hh Hm Hs.
  rewrite !Z.rem_mod_nonneg in * by lia.
  change (1000 * 60 * 60) with 3600000 in *.
  change (1000 * 60) with 60000 in *.
  assert (Hfields : 0 <= hours /\ 0 <= minutes < 60 /\ 0 <= seconds < 60
                    /\ hours * 3600 + minutes * 60 + seconds
                       = (currentTime - checkInTime) / 1000
                    /\ (currentTime - checkInTime < 100 * 3600000 ->
                        hours < 100)).
  { subst hours minutes seconds. Z.div_mod_to_equations. lia. }
  destruct Hfields as (H1 & H2 & H3 & H4 & H5).
  repeat split; try lia.
  intros Hlt. rewrite !length_append, !padStart2_length by lia. reflexivity.
Qed.

(** * The handlers on concrete requests *)

#[local] Existing Instance WholeRuntime.runtime.

Lemma whole_bcrypt_sound (pin salt : string) :
  bcrypt_compare pin (bcrypt_hash pin salt) = true.
Proof. apply String.eqb_refl. Qed.

(** The specification's example: rate 20, cap 8, ten hours elapsed. *)
Lemma checkout_records_pay_witness :
  let (response, srv') :=
    Routes.checkout Example.atSeven "t1"
      (Routes.run Example.atNine Routes.initial) in
  response = json (OneTeacher (Some (checkedOut Example.adaAtNine)))
  /\ JsMap.get "e1" (MemStorage.timeEntries (Routes.storage srv'))
     = Some (finalized Example.entryAtNine (now Example.atSeven)
               "10" "8" "160").
Proof.
  assert (W := checkout_records_pay Example.atSeven "t1"
                 (Routes.run Example.atNine Routes.initial)
                 Example.adaAtNine (Example.jan1 + 9 * Example.hour)
                 Example.entryAtNine).
  vm_compute in W. vm_compute. apply W; reflexivity.
Defined.

Lemma checkin_conflict_witness :
  Routes.checkin Example.atSeven "t1"
    (Routes.run Example.atNine Routes.initial)
  = (fail 400 "Teacher already checked in",
     Routes.run Example.atNine Routes.initial).
Proof.
  assert (W := checkin_conflict Example.atSeven "t1"
                 (Routes.run Example.atNine Routes.initial)
                 Example.adaAtNine).
  vm_compute in W. vm_compute. apply W; reflexivity.
Defined.

Lemma checkout_conflict_witness :
  Routes.checkout Example.atSeven "t1"
    (Routes.run Example.tenHours Routes.initial)
  = (fail 400 "Teacher not checked in",
     Routes.run Example.tenHours Routes.initial).
Proof.
  assert (W := checkout_conflict Example.atSeven "t1"
                 (Routes.run Example.tenHours Routes.initial)
                 (checkedOut Example.adaAtNine)).
  vm_compute in W. vm_compute. apply W; [reflexivity|].
  left. discriminate.
Defined.

Lemma checkout_without_open_entry_witness :
  let (response, srv') :=
    Routes.checkout Example.atOne "t1"
      (Routes.run Example.lateEvening Routes.initial) in
  response = json (OneTeacher (Some (checkedOut Example.adaLate)))
  /\ JsMap.get "t1" (MemStorage.teachers (Routes.storage srv'))
     = Some (checkedOut Example.adaLate)
  /\ MemStorage.timeEntries (Routes.storage srv')
     = [("e1", Example.entryLate)]
  /\ MemStorage.appSettings (Routes.storage srv')
     = Some (AppSettings.mk "s1" "hash:1234")
  /\ Routes.session_isAdmin srv' = true.
Proof.
  assert (W := checkout_without_open_entry Example.atOne "t1"
                 (Routes.run Example.lateEvening Routes.initial)
                 Example.adaLate (Example.jan1 + 23 * Example.hour)).
  vm_compute in W. vm_compute. apply W; try reflexivity.
  intros entry [<- | []] _ Hdate. discriminate Hdate.
Defined.

Lemma second_setup_rejected_witness :
  let (response, srv') :=
    Routes.setupPin (Example.env Example.jan1 "s2") (mkPinBody (Some "9999"))
      (Routes.run Example.setup Routes.initial) in
  status response = 400
  /\ (response = fail 400 "PIN already set up"
      \/ response = fail 400 "Invalid PIN format")
  /\ srv' = Routes.run Example.setup Routes.initial
  /\ fst (Routes.validatePinRoute Example.pinBody srv')
     = json (Message "PIN validated successfully").
Proof.
  assert (W := second_setup_rejected (Example.env Example.jan1 "s2")
                 (mkPinBody (Some "9999"))
                 (Routes.run Example.setup Routes.initial)
                 (AppSettings.mk "s1" "hash:1234")
                 whole_bcrypt_sound eq_refl).
  vm_compute in W. destruct W as (W1 & W2 & W3 & W4).
  vm_compute.
  split; [exact W1 | split; [exact W2 | split; [exact W3 |]]].
  exact (W4 "1234" "salt" eq_refl eq_refl).
Defined.

Lemma export_keeps_orphans_witness :
  exists rows,
    Routes.exportTimesheet Example.january2024
      (Routes.run Example.deleted Routes.initial)
    = (json (ExportData rows), Routes.run Example.deleted Routes.initial)
    /\ In (orphanRow
             (finalized Example.entryAtNine (now Example.atSeven)
                "10" "8" "160")) rows.
Proof.
  assert (W := export_keeps_orphans Example.january2024
                 (Routes.run Example.deleted Routes.initial)
                 (finalized Example.entryAtNine (now Example.atSeven)
                    "10" "8" "160")).
  vm_compute in W. vm_compute. apply W.
  - reflexivity.
  - left. reflexivity.
  - discriminate.
  - intros t [].
Defined.

Ltac orderly_requests :=
  unfold Example.twoMonths, Example.tenHours, Example.pastMidnight,
    Example.lateEvening, Example.atNine, Example.setup in *;
  cbn [app orderlyRun orderly] in *.

Ltac orderly_step :=
  lazymatch goal with
  | |- True => exact I
  | |- _ = None => vm_compute; reflexivity
  | |- forall _, _ =>
      let Hteacher := fresh in
      let Hcur := fresh in
      intros ? ? Hteacher Hcur;
      vm_compute in Hteacher; injection Hteacher as <-;
      vm_compute in Hcur; injection Hcur as <-;
      vm_compute; reflexivity
  end.

(** Two sessions, each closed on the day it began, are an orderly run ... *)
Lemma twoMonths_orderly : orderlyRun Example.twoMonths Routes.initial.
Proof.
  orderly_requests. repeat (split; [orderly_step|]). exact I.
Qed.

Lemma twoMonths_oneOpenSession :
  oneOpenSession
    (Routes.storage (Routes.run Example.twoMonths Routes.initial)).
Proof. apply orderly_run_oneOpenSession. exact twoMonths_orderly. Defined.

(** ... and the session past midnight is not: its check-out is on the
    day after the check-in. *)
Lemma pastMidnight_not_orderly :
  ~ orderlyRun Example.pastMidnight Routes.initial.
Proof.
  intros Hrun. orderly_requests.
  destruct Hrun as (_ & _ & _ & _ & Hout & _).
  assert (Hday : IsoDate.toISODate (now Example.atOne)
                 = IsoDate.toISODate (Example.jan1 + 23 * Example.hour)).
  { apply (Hout Example.adaLate); vm_compute; reflexivity. }
  vm_compute in Hday. discriminate Hday.
Qed.

(** C2. A session that runs past midnight (UTC) is never closed: the
    check-out looks for an open entry dated today, finds none, and only
    resets the teacher; the next check-in opens a second entry.  After
    check-in at 23:00, check-out at 01:00 and check-in at 02:00 the store,
    reached by requests alone, holds two open entries of the one teacher;
    and already after the check-out the teacher is checked out while the
    first entry is still open. *)
Theorem open_entry_survives_midnight :
  let afterCheckout :=
    Routes.storage
      (Routes.run (Example.lateEvening ++ [(Example.atOne, PostCheckout "t1")])
         Routes.initial) in
  let this := Routes.storage (Routes.run Example.pastMidnight Routes.initial) in
  reachable this
  /\ JsMap.get "t1" (MemStorage.teachers afterCheckout)
     = Some (checkedOut Example.adaLate)
  /\ map TimeEntry.id (openEntries "t1" afterCheckout) = ["e1"]
  /\ map TimeEntry.id (openEntries "t1" this) = ["e1"; "e2"]
  /\ map TimeEntry.date (openEntries "t1" this) = ["2024-01-01"; "2024-01-02"].
Proof.
  split.
  - apply run_reachable. exact reachable_new.
  - vm_compute. repeat split.
Qed.

(** C3. An admin edit whose body carries only isCheckedIn = true is merged
    into the teacher as it is: the teacher is then checked in with
    currentCheckInTime = null, in a store reached by requests alone, and
    both check-in and check-out of that teacher are refused. *)
Theorem patch_breaks_status :
  let srv := Routes.run Example.patched Routes.initial in
  reachable (Routes.storage srv)
  /\ JsMap.get "t1" (MemStorage.teachers (Routes.storage srv))
     = Some (Teacher.mk "t1" "Ada" "20" "8" (Some true) None)
  /\ allConsistent (Routes.storage srv) = false
  /\ fst (Routes.checkin Example.atSeven "t1" srv)
     = fail 400 "Teacher already checked in"
  /\ fst (Routes.checkout Example.atSeven "t1" srv)
     = fail 400 "Teacher not checked in".
Proof.
  split.
  - apply run_reachable. exact reachable_new.
  - vm_compute. repeat split.
Qed.

(** C4. The export asked for January 2024 returns the entry of February
    2024 as well: both completed entries come back, latest first. *)
Theorem export_outside_period :
  let srv := Routes.run Example.twoMonths Routes.initial in
  exists rows,
    fst (Routes.exportTimesheet Example.january2024 srv)
    = json (ExportData rows)
    /\ map ExportRow.date rows = ["2024-02-01"; "2024-01-01"]
    /\ map (spec_inPeriod Example.january2024) (map ExportRow.date rows)
       = [false; true].
Proof.
  eexists. vm_compute. repeat split.
Qed.

(** ** Runs of the further properties *)

Lemma setup_then_validate_witness :
  let (response, srv1) :=
    Routes.setupPin (Example.env Example.jan1 "s1") Example.pinBody
      Routes.initial in
  let (validated, srv2) := Routes.validatePinRoute Example.pinBody srv1 in
  response = json (Message "PIN set up successfully")
  /\ MemStorage.appSettings (Routes.storage srv1)
     = Some (AppSettings.mk "s1" "hash:1234")
  /\ MemStorage.teachers (Routes.storage srv1) = []
  /\ MemStorage.timeEntries (Routes.storage srv1) = []
  /\ Routes.session_isAdmin srv1 = false
  /\ fst (Routes.getPinSetup srv1) = json (HasPin true)
  /\ validated = json (Message "PIN validated successfully")
  /\ Routes.session_isAdmin srv2 = true
  /\ Routes.storage srv2 = Routes.storage srv1.
Proof.
  assert (W := setup_then_validate (Example.env Example.jan1 "s1")
                 Example.pinBody "1234" Routes.initial whole_bcrypt_sound).
  vm_compute in W.
  specialize (W eq_refl eq_refl ltac:(repeat constructor)
                ltac:(repeat constructor)).
  vm_compute. exact W.
Defined.

Lemma malformed_pin_rejected_witness :
  Routes.setupPin (Example.env Example.jan1 "s1") (mkPinBody (Some "123"))
    Routes.initial
  = (fail 400 "Invalid PIN format", Routes.initial)
  /\ Routes.validatePinRoute (mkPinBody (Some "123")) Routes.initial
     = (fail 400 "Invalid PIN format", Routes.initial).
Proof.
  apply (malformed_pin_rejected (Example.env Example.jan1 "s1")
           (mkPinBody (Some "123")) Routes.initial).
  intros p [= <-]. left. vm_compute. lia.
Defined.

Lemma admin_gate_witness :
  Routes.handle (Example.env Example.jan1 "t1") (PostTeachers Example.ada)
    Routes.initial
  = (fail 403 "Admin access required", Routes.initial).
Proof.
  apply (admin_gate (Example.env Example.jan1 "t1")
           (PostTeachers Example.ada) Routes.initial); reflexivity.
Defined.

Lemma ungated_requests_ignore_session_witness :
  let this := Routes.storage (Routes.run Example.tenHours Routes.initial) in
  fst (Routes.handle Example.atOne PostReset (Routes.mkServer this false))
  = fst (Routes.handle Example.atOne PostReset (Routes.mkServer this true))
  /\ Routes.storage
       (snd (Routes.handle Example.atOne PostReset
               (Routes.mkServer this false)))
     = Routes.storage
         (snd (Routes.handle Example.atOne PostReset
                 (Routes.mkServer this true))).
Proof.
  apply (ungated_requests_ignore_session Example.atOne PostReset
           (Routes.storage (Routes.run Example.tenHours Routes.initial))
           false true).
  - reflexivity.
  - discriminate.
Defined.

Lemma create_teacher_roundtrip_witness :
  let srv := Routes.run Example.loggedIn Routes.initial in
  let (response, srv') :=
    Routes.createTeacherRoute (Example.env Example.jan1 "t1") Example.ada
      srv in
  response = mkResponse 201 (OneTeacher (Some Example.adaNew))
  /\ JsMap.get "t1" (MemStorage.teachers (Routes.storage srv'))
     = Some Example.adaNew
  /\ fst (Routes.listTeachers srv') = json (TeacherList [Example.adaNew])
  /\ MemStorage.timeEntries (Routes.storage srv') = []
  /\ Routes.session_isAdmin srv' = true.
Proof.
  assert (W := create_teacher_roundtrip (Example.env Example.jan1 "t1")
                 Example.ada (Routes.run Example.loggedIn Routes.initial)
                 "Ada" "20" "8" eq_refl eq_refl eq_refl eq_refl).
  vm_compute in W. destruct W as (W1 & W2 & _ & W4 & W5 & _ & W7).
  vm_compute.
  split; [exact W1 | split; [exact W2 | split; [exact (W4 eq_refl) |]]].
  split; [exact W5 | exact W7].
Defined.

Lemma unknown_teacher_not_found_witness :
  let srv := Routes.run Example.setup Routes.initial in
  Routes.checkin Example.atNineEnv "nobody" srv
  = (fail 404 "Teacher not found", srv)
  /\ Routes.checkout Example.atNineEnv "nobody" srv
     = (fail 404 "Teacher not found", srv)
  /\ Routes.deleteTeacherRoute "nobody" srv
     = (fail 404 "Teacher not found", srv).
Proof.
  assert (W := unknown_teacher_not_found Example.atNineEnv "nobody"
                 (Routes.run Example.setup Routes.initial) eq_refl).
  destruct W as (W1 & W2 & W3). destruct (W3 eq_refl) as (_ & W4 & _).
  cbv zeta. auto.
Defined.

Lemma checkin_opens_session_witness :
  let (response, srv') :=
    Routes.checkin Example.atNineEnv "t1"
      (Routes.run Example.setup Routes.initial) in
  response = json (OneTeacher (Some Example.adaAtNine))
  /\ MemStorage.teachers (Routes.storage srv') = [("t1", Example.adaAtNine)]
  /\ MemStorage.timeEntries (Routes.storage srv')
     = [("e1", Example.entryAtNine)].
Proof.
  assert (W := checkin_opens_session Example.atNineEnv "t1"
                 (Routes.run Example.setup Routes.initial) Example.adaNew
                 eq_refl).
  vm_compute in W. specialize (W ltac:(discriminate)).
  destruct W as (W1 & _). vm_compute.
  split; [exact W1 | split; reflexivity].
Defined.

Lemma checkin_checkout_roundtrip_witness :
  let (response, srv') :=
    Routes.checkout Example.atSeven "t1"
      (snd (Routes.checkin Example.atNineEnv "t1"
              (Routes.run Example.setup Routes.initial))) in
  response = json (OneTeacher (Some Example.adaNew))
  /\ JsMap.get "t1" (MemStorage.teachers (Routes.storage srv'))
     = Some Example.adaNew
  /\ JsMap.get "e1" (MemStorage.timeEntries (Routes.storage srv'))
     = Some Example.entryDone.
Proof.
  assert (W := checkin_checkout_roundtrip Example.atNineEnv Example.atSeven
                 "t1" (Routes.run Example.setup Routes.initial)
                 Example.adaNew eq_refl).
  vm_compute in W.
  specialize (W ltac:(discriminate) eq_refl eq_refl ltac:(intros entry [])).
  destruct W as (W1 & W2 & W3 & _). vm_compute.
  split; [exact W1 | split; [exact W2 | exact W3]].
Defined.

Lemma completed_entry_is_final_witness :
  JsMap.get "e1"
    (MemStorage.timeEntries
       (Routes.storage
          (snd (Routes.handle
                  (Example.env (Example.jan1 + 33 * Example.hour) "e2")
                  (PostCheckin "t1")
                  (Routes.run Example.tenHours Routes.initial)))))
  = Some Example.entryDone.
Proof.
  apply (completed_entry_is_final
           (Example.env (Example.jan1 + 33 * Example.hour) "e2")
           (PostCheckin "t1") (Routes.run Example.tenHours Routes.initial)
           "e1" Example.entryDone).
  - reflexivity.
  - reflexivity.
  - discriminate.
  - discriminate.
  - discriminate.
Defined.

Lemma sessions_keep_teacher_data_witness :
  let srv := Routes.run Example.atNine Routes.initial in
  let srv' := snd (Routes.handle Example.atSeven (PostCheckout "t1") srv) in
  JsMap.keys (MemStorage.teachers (Routes.storage srv')) = ["t1"]
  /\ exists teacher',
       JsMap.get "t1" (MemStorage.teachers (Routes.storage srv'))
       = Some teacher'
       /\ Teacher.name teacher' = "Ada"
       /\ Teacher.hourlyRate teacher' = "20"
       /\ Teacher.maxBillableHours teacher' = "8".
Proof.
  assert (W := sessions_keep_teacher_data Example.atSeven "t1"
                 (PostCheckout "t1")
                 (Routes.run Example.atNine Routes.initial)
                 (or_intror eq_refl)).
  cbv zeta in *. destruct W as [Wkeys Wdata]. split.
  - rewrite Wkeys. reflexivity.
  - destruct (Wdata "t1" Example.adaAtNine eq_refl)
      as (teacher' & Hget & _ & Hname & Hrate & Hmax & _).
    exists teacher'. auto.
Defined.

Lemma entries_are_never_deleted_witness :
  let srv := Routes.run Example.tenHours Routes.initial in
  let srv' :=
    snd (Routes.handle Example.atOne (DeleteTeacher "t1") srv) in
  JsMap.keys (MemStorage.timeEntries (Routes.storage srv')) = ["e1"].
Proof.
  assert (W := entries_are_never_deleted Example.atOne (DeleteTeacher "t1")
                 (Routes.run Example.tenHours Routes.initial)).
  specialize (W ltac:(discriminate)). cbv zeta in *.
  destruct W as [_ Wkeys].
  rewrite Wkeys; [reflexivity | discriminate].
Defined.

Lemma export_one_row_per_completed_entry_witness :
  exists rows,
    Routes.exportTimesheet Example.january2024
      (Routes.run Example.twoMonths Routes.initial)
    = (json (ExportData rows), Routes.run Example.twoMonths Routes.initial)
    /\ List.length rows = 2%nat.
Proof.
  assert (Hadmin : Routes.session_isAdmin
                     (Routes.run Example.twoMonths Routes.initial) = true)
    by (vm_compute; reflexivity).
  destruct (export_one_row_per_completed_entry Example.january2024
              (Routes.run Example.twoMonths Routes.initial) Hadmin)
    as (rows & Hrows & _ & Hlen).
  exists rows. split; [exact Hrows | exact Hlen].
Defined.

Lemma export_joins_teacher_witness :
  exists rows,
    Routes.exportTimesheet Example.january2024
      (Routes.run Example.tenHours Routes.initial)
    = (json (ExportData rows), Routes.run Example.tenHours Routes.initial)
    /\ In (joinedRow Example.adaNew Example.entryDone) rows.
Proof.
  assert (W := export_joins_teacher Example.january2024
                 (Routes.run Example.tenHours Routes.initial)
                 Example.entryDone Example.adaNew).
  vm_compute in W.
  specialize (W eq_refl eq_refl (or_introl eq_refl) ltac:(discriminate)
                eq_refl ltac:(discriminate) ltac:(discriminate)).
  vm_compute. exact W.
Defined.

Lemma teachers_stay_keyed_witness :
  teachersKeyedById
    (Routes.storage
       (snd (Routes.handle Example.atNineEnv (PostCheckin "t1")
               (Routes.run Example.setup Routes.initial)))) = true.
Proof.
  apply (teachers_stay_keyed Example.atNineEnv (PostCheckin "t1")
           (Routes.run Example.setup Routes.initial)).
  - discriminate.
  - reflexivity.
Defined.

(** One hour, two minutes and five seconds. *)
Lemma timer_shows_elapsed_seconds_witness :
  Client.formatTimer (Example.jan1 + 3725000) Example.jan1 = "01:02:05"
  /\ Client.timerFields 3725000 = (1, 2, 5).
Proof.
  assert (W := timer_shows_elapsed_seconds (Example.jan1 + 3725000)
                 Example.jan1).
  vm_compute in W. specialize (W ltac:(discriminate)).
  destruct W as (W1 & _).
  split; [|reflexivity]. vm_compute. exact W1.
Defined.

Lemma export_sorted_witness :
  exists rows,
    body (fst (Routes.exportTimesheet Example.january2024
                 (Routes.run Example.twoMonths Routes.initial)))
    = ExportData rows
    /\ dateDescending rows.
Proof.
  eexists. split; [vm_compute; reflexivity|].
  apply (export_sorted Example.january2024
           (Routes.run Example.twoMonths Routes.initial)).
  - intros entry Hin _. vm_compute in Hin.
    destruct Hin as [<- | [<- | []]]; vm_compute; discriminate.
  - vm_compute. reflexivity.
Defined.

Lemma reachable_wellFormed_witness :
  wellFormed (Routes.storage (Routes.run Example.twoMonths Routes.initial))
  = true.
Proof.
  apply (reachable_wellFormed
           (Routes.storage (Routes.run Example.twoMonths Routes.initial))).
  apply run_reachable. exact reachable_new.
Defined.

Lemma run_keeps_status_witness :
  allConsistent (Routes.storage (Routes.run Example.twoMonths Routes.initial))
  = true.
Proof.
  apply (run_keeps_status Example.twoMonths Routes.initial).
  - repeat constructor.
  - reflexivity.
Defined.
